(** * Verification of the arXiv / PubMed search gateway

    The repository holds two edge handlers with the same shape: a POST-only
    entry point that reads a JSON search request, builds the upstream query
    string, waits on a module-level rate limiter, fetches XML with axios,
    parses it with fast-xml-parser and maps the parsed tree to a list of
    paper records.

    The handlers are embedded as functions over the values they really
    manipulate: the JavaScript object tree returned by [parser.parse].  The
    XML parser, axios and the host clock are collaborators of the handlers
    and enter as arguments. *)

From Stdlib Require Import ZArith List String Ascii Bool Lia.
From Stdlib Require Import Numbers.DecimalString.
Import ListNotations.
Open Scope string_scope.
Open Scope Z_scope.

(** ** JavaScript values and the built-ins the handlers call *)

Module JS.

(** Numbers.  The handlers only count, compare and print integers, and
    [Number.parseInt] / [Number] yield [NaN] on text that is not numeric; the
    model keeps the integer-valued numbers and [NaN]. *)
Inductive number := Int (z : Z) | NaN.

(** The tree produced by [parser.parse].  Objects keep their properties in
    insertion order, as [JSON.stringify] later observes it. *)
#[local] Set Warnings "-register-all".
Inductive value :=
| Undefined
| Null
| Bool (b : bool)
| Num (n : number)
| Str (s : string)
| Arr (elems : list value)
| Obj (props : list (string * value)).

(** What a [throw] carries, as far as the [catch] clause of the handlers can
    tell: an instance of [Error] with its message, or anything else. *)
Inductive exn := Error (message : string) | NotAnError.

Inductive completion (A : Type) :=
| Normal (a : A)
| Throw (e : exn).
Arguments Normal {A} a.
Arguments Throw {A} e.

Definition bind {A B} (c : completion A) (k : A -> completion B) : completion B :=
  match c with
  | Normal a => k a
  | Throw e => Throw e
  end.

Notation "'let*' x ':=' c 'in' k" := (bind c (fun x => k))
  (at level 10, x name, c at level 100, k at level 200).

Fixpoint mapM {A B} (f : A -> completion B) (l : list A) : completion (list B) :=
  match l with
  | [] => Normal []
  | x :: r =>
      let* y := f x in
      let* ys := mapM f r in
      Normal (y :: ys)
  end.

(** [TypeError] messages follow V8's wording; the handlers only forward
    them. *)
Definition TypeError_read (base key : string) : exn :=
  Error ("Cannot read properties of " ++ base ++ " (reading '" ++ key ++ "')").

Definition TypeError_call (method : string) : exn :=
  Error (method ++ " is not a function").

Definition string_of_Z (z : Z) : string := NilZero.string_of_int (Z.to_int z).

Definition number_to_string (n : number) : string :=
  match n with
  | Int z => string_of_Z z
  | NaN => "NaN"
  end.

Fixpoint join_strings (sep : string) (l : list string) : string :=
  match l with
  | [] => ""
  | [s] => s
  | s :: r => s ++ sep ++ join_strings sep r
  end.

(** [ToString], as applied by template literals, [String(...)],
    [Array.prototype.join] and [parseInt]. *)
Fixpoint ToString (v : value) : string :=
  match v with
  | Undefined => "undefined"
  | Null => "null"
  | Bool true => "true"
  | Bool false => "false"
  | Num n => number_to_string n
  | Str s => s
  | Arr l =>
      join_strings ","
        (map (fun x => match x with
                       | Undefined | Null => ""
                       | _ => ToString x
                       end) l)
  | Obj _ => "[object Object]"
  end.

(** [Array.prototype.join(sep)]: [undefined] and [null] elements print as the
    empty string. *)
Definition join (sep : string) (l : list value) : string :=
  join_strings sep
    (map (fun x => match x with
                   | Undefined | Null => ""
                   | _ => ToString x
                   end) l).

(** [ToBoolean]. *)
Definition truthy (v : value) : bool :=
  match v with
  | Undefined | Null => false
  | Bool b => b
  | Num (Int z) => negb (z =? 0)
  | Num NaN => false
  | Str s => negb (s =? "")%string
  | Arr _ | Obj _ => true
  end.

(** [a || b]. *)
Definition or_else (a b : value) : value := if truthy a then a else b.

Fixpoint lookup (k : string) (ps : list (string * value)) : value :=
  match ps with
  | [] => Undefined
  | (k', v) :: r => if (k =? k')%string then v else lookup k r
  end.

Definition str_length (s : string) : Z := Z.of_nat (String.length s).

(** [v.k] for the property names the handlers read.  Reading a property of
    [undefined] or [null] throws; primitives and arrays have no own
    property of these names besides [length]. *)
Definition get (v : value) (k : string) : completion value :=
  match v with
  | Undefined => Throw (TypeError_read "undefined" k)
  | Null => Throw (TypeError_read "null" k)
  | Obj ps => Normal (lookup k ps)
  | Arr l => Normal (if (k =? "length")%string then Num (Int (Z.of_nat (List.length l))) else Undefined)
  | Str s => Normal (if (k =? "length")%string then Num (Int (str_length s)) else Undefined)
  | Bool _ | Num _ => Normal Undefined
  end.

(** [v?.k]. *)
Definition get_opt (v : value) (k : string) : completion value :=
  match v with
  | Undefined | Null => Normal Undefined
  | _ => get v k
  end.

(** [v[0]]. *)
Definition get_0 (v : value) : completion value :=
  match v with
  | Undefined => Throw (TypeError_read "undefined" "0")
  | Null => Throw (TypeError_read "null" "0")
  | Arr l => Normal (nth 0 l Undefined)
  | Str (String c _) => Normal (Str (String c ""))
  | Str "" => Normal Undefined
  | Obj ps => Normal (lookup "0" ps)
  | Bool _ | Num _ => Normal Undefined
  end.

(** [Array.isArray]. *)
Definition isArray (v : value) : bool :=
  match v with
  | Arr _ => true
  | _ => false
  end.

(** [v === 'lit']. *)
Definition strict_eq_str (v : value) (lit : string) : bool :=
  match v with
  | Str s => (s =? lit)%string
  | _ => false
  end.

(** [v.map(f)]: only arrays have a [map] method. *)
Definition call_map (name : string) (v : value) (f : value -> completion value)
  : completion (list value) :=
  match v with
  | Arr l => mapM f l
  | Undefined => Throw (TypeError_read "undefined" "map")
  | Null => Throw (TypeError_read "null" "map")
  | _ => Throw (TypeError_call (name ++ ".map"))
  end.

Fixpoint findM (p : value -> completion bool) (l : list value) : completion value :=
  match l with
  | [] => Normal Undefined
  | x :: r =>
      let* b := p x in
      if b then Normal x else findM p r
  end.

(** [v.find(p)]. *)
Definition call_find (name : string) (v : value) (p : value -> completion bool)
  : completion value :=
  match v with
  | Arr l => findM p l
  | Undefined => Throw (TypeError_read "undefined" "find")
  | Null => Throw (TypeError_read "null" "find")
  | _ => Throw (TypeError_call (name ++ ".find"))
  end.

(** [v.join(sep)]. *)
Definition call_join (name : string) (v : value) (sep : string) : completion string :=
  match v with
  | Arr l => Normal (join sep l)
  | Undefined => Throw (TypeError_read "undefined" "join")
  | Null => Throw (TypeError_read "null" "join")
  | _ => Throw (TypeError_call (name ++ ".join"))
  end.

(** White space in the sense of [String.prototype.trim] and [parseInt].
    Strings are byte strings here, so this is the ASCII part of the
    WhiteSpace and LineTerminator classes. *)
Definition is_space (c : ascii) : bool :=
  let n := nat_of_ascii c in
  ((9 <=? n) && (n <=? 13))%nat || (n =? 32)%nat.

Fixpoint trimStart (s : string) : string :=
  match s with
  | "" => ""
  | String c r => if is_space c then trimStart r else s
  end.

Fixpoint trimEnd (s : string) : string :=
  match s with
  | "" => ""
  | String c r =>
      match trimEnd r with
      | "" => if is_space c then "" else String c ""
      | r' => String c r'
      end
  end.

Definition trim (s : string) : string := trimEnd (trimStart s).

(** [v.trim()]. *)
Definition call_trim (name : string) (v : value) : completion value :=
  match v with
  | Str s => Normal (Str (trim s))
  | Undefined => Throw (TypeError_read "undefined" "trim")
  | Null => Throw (TypeError_read "null" "trim")
  | _ => Throw (TypeError_call (name ++ ".trim"))
  end.

Definition digit_of (c : ascii) : option Z :=
  let n := nat_of_ascii c in
  if ((48 <=? n) && (n <=? 57))%nat then Some (Z.of_nat n - 48) else None.

(** The longest prefix of decimal digits, read as a number; [None] when the
    prefix is empty. *)
Fixpoint leading_digits (acc : option Z) (s : string) : option Z :=
  match s with
  | "" => acc
  | String c r =>
      match digit_of c with
      | Some d =>
          leading_digits (Some (10 * match acc with Some a => a | None => 0 end + d)) r
      | None => acc
      end
  end.

(** [Number.parseInt(v, 10)]. *)
Definition parseInt (v : value) : number :=
  let s := trimStart (ToString v) in
  let '(neg, body) :=
    match s with
    | String "-" r => (true, r)
    | String "+" r => (false, r)
    | _ => (false, s)
    end in
  match leading_digits None body with
  | Some n => Int (if neg then - n else n)
  | None => NaN
  end.

Fixpoint all_digits (s : string) : bool :=
  match s with
  | "" => true
  | String c r =>
      match digit_of c with
      | Some _ => all_digits r
      | None => false
      end
  end.

(** [StringToNumber] on the literals that denote integers in decimal; the
    other numeric forms (fractions, exponents, radix prefixes, [Infinity])
    denote numbers outside [number]. *)
Definition StringToNumber (s : string) : number :=
  let t := trim s in
  match t with
  | "" => Int 0
  | String "-" r =>
      if all_digits r then
        match leading_digits None r with Some n => Int (- n) | None => NaN end
      else NaN
  | String "+" r =>
      if all_digits r then
        match leading_digits None r with Some n => Int n | None => NaN end
      else NaN
  | _ =>
      if all_digits t then
        match leading_digits None t with Some n => Int n | None => NaN end
      else NaN
  end.

(** [Number(v)]. *)
Definition ToNumber (v : value) : number :=
  match v with
  | Undefined => NaN
  | Null => Int 0
  | Bool true => Int 1
  | Bool false => Int 0
  | Num n => n
  | Str s => StringToNumber s
  | Arr _ | Obj _ => StringToNumber (ToString v)
  end.

(** The document [JSON.stringify] writes, kept as a tree: properties whose
    value is [undefined] are left out, [undefined] array elements and [NaN]
    become [null]. *)
Fixpoint JSON_tree (v : value) : value :=
  match v with
  | Num NaN => Null
  | Arr l =>
      Arr (map (fun x => match x with
                         | Undefined => Null
                         | _ => JSON_tree x
                         end) l)
  | Obj ps =>
      Obj ((fix props (ps : list (string * value)) : list (string * value) :=
              match ps with
              | [] => []
              | (k, Undefined) :: r => props r
              | (k, x) :: r => (k, JSON_tree x) :: props r
              end) ps)
  | _ => v
  end.

Definition has_prop (k : string) (v : value) : bool :=
  match v with
  | Obj ps => existsb (fun kv => (fst kv =? k)%string) ps
  | _ => false
  end.

(** Percent-encoding of [encodeURIComponent] over the UTF-8 bytes of the
    string. *)
Definition unreserved (c : ascii) : bool :=
  let n := nat_of_ascii c in
  (((48 <=? n) && (n <=? 57)) || ((65 <=? n) && (n <=? 90)) || ((97 <=? n) && (n <=? 122))
   || existsb (Nat.eqb n) [45; 95; 46; 33; 126; 42; 39; 40; 41])%nat.

Definition hex_digit (n : nat) : ascii :=
  if (n <? 10)%nat then ascii_of_nat (48 + n) else ascii_of_nat (55 + n).

Fixpoint encodeURIComponent (s : string) : string :=
  match s with
  | "" => ""
  | String c r =>
      let n := nat_of_ascii c in
      if unreserved c then String c (encodeURIComponent r)
      else String "%" (String (hex_digit (n / 16)) (String (hex_digit (n mod 16)) (encodeURIComponent r)))
  end.

End JS.

(** ** The rate limiter

    Both handler modules carry the same limiter: a module-level
    [lastRequestTime], initially 0, and an async [rateLimit] that reads the
    clock, sleeps with [setTimeout] when the last grant is less than
    [RATE_LIMIT] milliseconds old, and then stores a second clock reading in
    [lastRequestTime].  A call that sleeps is suspended at its [await];
    other calls may enter in the meantime. *)

Module Limiter.

Record state := {
  clock : Z;                (* what [Date.now()] returns *)
  lastRequestTime : Z;
  timers : list Z;          (* suspended calls: earliest time each may resume *)
  grants : list Z           (* grant times, most recent first *)
}.

Definition init (now : Z) : state :=
  {| clock := now; lastRequestTime := 0; timers := []; grants := [] |}.

Inductive event :=
| Tick (d : Z)       (* the clock advances by [d] *)
| Call (e : Z)       (* a caller enters [rateLimit]; its synchronous part takes [e] *)
| Resume (k : nat).  (* the timer of the [k]-th suspended call fires *)

Definition advance (d : Z) (s : state) : state :=
  {| clock := clock s + d; lastRequestTime := lastRequestTime s;
     timers := timers s; grants := grants s |}.

Definition suspend (due : Z) (s : state) : state :=
  {| clock := clock s; lastRequestTime := lastRequestTime s;
     timers := (timers s ++ [due])%list; grants := grants s |}.

(** [lastRequestTime = Date.now()], after which the awaiting caller goes on. *)
Definition grant (s : state) : state :=
  {| clock := clock s; lastRequestTime := clock s;
     timers := timers s; grants := clock s :: grants s |}.

Fixpoint remove_nth {A} (k : nat) (l : list A) : list A :=
  match l, k with
  | [], _ => []
  | _ :: r, O => r
  | x :: r, S k' => x :: remove_nth k' r
  end.

Definition drop_timer (k : nat) (s : state) : state :=
  {| clock := clock s; lastRequestTime := lastRequestTime s;
     timers := remove_nth k (timers s); grants := grants s |}.

(** [rateLimit], up to its [await] or, when it does not sleep, to its end.
    A timer set for [RATE_LIMIT - timeSinceLastRequest] milliseconds fires
    no earlier than that long after [now]. *)
Definition rateLimit (RATE_LIMIT : Z) (e : Z) (s : state) : state :=
  let now := clock s in
  let timeSinceLastRequest := now - lastRequestTime s in
  if timeSinceLastRequest <? RATE_LIMIT then
    suspend (now + (RATE_LIMIT - timeSinceLastRequest)) (advance e s)
  else
    grant (advance e s).

Definition step (RATE_LIMIT : Z) (s : state) (ev : event) : option state :=
  match ev with
  | Tick d => if 0 <=? d then Some (advance d s) else None
  | Call e => if 0 <=? e then Some (rateLimit RATE_LIMIT e s) else None
  | Resume k =>
      match nth_error (timers s) k with
      | Some due => if due <=? clock s then Some (grant (drop_timer k s)) else None
      | None => None
      end
  end.

Fixpoint run (RATE_LIMIT : Z) (s : state) (evs : list event) : option state :=
  match evs with
  | [] => Some s
  | ev :: r =>
      match step RATE_LIMIT s ev with
      | Some s' => run RATE_LIMIT s' r
      | None => None
      end
  end.

(** A run in which no call enters [rateLimit] while another one is
    suspended in it. *)
Fixpoint one_at_a_time (RATE_LIMIT : Z) (s : state) (evs : list event) : bool :=
  match evs with
  | [] => true
  | ev :: r =>
      match ev, timers s with
      | Call _, _ :: _ => false
      | _, _ =>
          match step RATE_LIMIT s ev with
          | Some s' => one_at_a_time RATE_LIMIT s' r
          | None => true
          end
      end
  end.

(** Consecutive grants, most recent first, are at least [gap] apart. *)
Fixpoint spaced (gap : Z) (l : list Z) : Prop :=
  match l with
  | later :: (earlier :: _) as r => gap <= later - earlier /\ spaced gap r
  | _ => True
  end.

End Limiter.

(** ** What both handlers share *)

Module Edge.
Import JS.

(** What a handler does to the outside, in order. *)
Inductive effect :=
| AwaitSlot                (* [await rateLimit()] *)
| HttpGet (url : string).  (* [axios.get(url)] *)

(** The two error kinds of the plugin SDK the handlers use. *)
Inductive PluginErrorType := MethodNotAllowed | InternalServerError.

(** [new Response(JSON.stringify(body), { headers })], or what
    [createErrorResponse] of the SDK is called with. *)
Inductive Response :=
| JsonResponse (body : value) (headers : list (string * string))
| ErrorResponse (errorType : PluginErrorType) (message : option string).

Record Request (Body : Type) := {
  method : string;
  json : completion Body   (* what [await req.json()] gives *)
}.
Arguments method {Body} r.
Arguments json {Body} r.

Record Upstream := {
  axios_get : string -> completion string;   (* [(await axios.get(url)).data] *)
  parser_parse : string -> completion value
}.

(** Effects so far, and how the computation ended. *)
Definition io (A : Type) : Type := list effect * completion A.

Definition ret {A} (a : A) : io A := ([], Normal a).

Definition iobind {A B} (c : io A) (k : A -> io B) : io B :=
  match c with
  | (t, Normal a) => let '(t', r) := k a in ((t ++ t')%list, r)
  | (t, Throw e) => (t, Throw e)
  end.

Definition lift {A} (c : completion A) : io A := ([], c).

Definition await_rateLimit : io unit := ([AwaitSlot], Normal tt).

Definition fetch (up : Upstream) (url : string) : io string :=
  ([HttpGet url], axios_get up url).

Notation "'do' x '<-' c ';' k" := (iobind c (fun x => k))
  (at level 10, x name, c at level 100, k at level 200).

Definition catch_message (fallback : string) (e : exn) : string :=
  match e with
  | Error m => m
  | NotAnError => fallback
  end.

Definition is_json_response (r : Response) : bool :=
  match r with
  | JsonResponse _ _ => true
  | ErrorResponse _ _ => false
  end.

Definition header (name : string) (r : Response) : option string :=
  match r with
  | JsonResponse _ hs =>
      match find (fun h => (fst h =? name)%string) hs with
      | Some h => Some (snd h)
      | None => None
      end
  | ErrorResponse _ _ => None
  end.

Definition body_prop (k : string) (r : Response) : value :=
  match r with
  | JsonResponse (Obj ps) _ => lookup k ps
  | _ => Undefined
  end.

(** The year filters test their bound with [if (year)]: a bound that is
    absent, or 0, does not count. *)
Definition given (year : option Z) : bool :=
  match year with
  | Some y => negb (y =? 0)
  | None => false
  end.

(** [`${year}`]. *)
Definition year_text (year : option Z) : string :=
  match year with
  | Some y => string_of_Z y
  | None => "undefined"
  end.

End Edge.

(** ** The arXiv handler *)

Module Arxiv.
Import JS Edge.

Inductive SearchField := all | title | author | abstract.
Inductive SortBy := relevance | lastUpdatedDate | submittedDate.
Inductive SortOrder := ascending | descending.

Record ArxivRequestData := {
  maxResults : option Z;
  query : string;
  searchField : option SearchField;
  sortBy : option SortBy;
  sortOrder : option SortOrder;
  yearEnd : option Z;
  yearStart : option Z
}.

Definition RATE_LIMIT : Z := 3000.

Definition default {A} (d : A) (o : option A) : A :=
  match o with
  | Some a => a
  | None => d
  end.

Definition SortBy_text (s : SortBy) : string :=
  match s with
  | relevance => "relevance"
  | lastUpdatedDate => "lastUpdatedDate"
  | submittedDate => "submittedDate"
  end.

Definition SortOrder_text (s : SortOrder) : string :=
  match s with
  | ascending => "ascending"
  | descending => "descending"
  end.

(** The [switch (searchField)]. *)
Definition fieldQuery (f : SearchField) (query : string) : string :=
  match f with
  | title => "ti:" ++ query
  | author => "au:" ++ query
  | abstract => "abs:" ++ query
  | all => "all:" ++ query
  end.

(** The [dateQuery] array after the two pushes. *)
Definition dateQuery (yearStart yearEnd : option Z) : list string :=
  List.app
    (if given yearStart
     then ["submittedDate:[" ++ year_text yearStart ++ "0101 TO 99991231]"]
     else [])
    (if given yearEnd
     then ["submittedDate:[00000101 TO " ++ year_text yearEnd ++ "1231]"]
     else []).

Definition searchQuery (r : ArxivRequestData) : string :=
  let searchQuery := fieldQuery (default all (searchField r)) (query r) in
  if given (yearStart r) || given (yearEnd r) then
    let dateQuery := dateQuery (yearStart r) (yearEnd r) in
    if (0 <? List.length dateQuery)%nat
    then "(" ++ searchQuery ++ ") AND (" ++ join_strings " AND " dateQuery ++ ")"
    else searchQuery
  else searchQuery.

Definition baseUrl : string := "http://export.arxiv.org/api/query".

Definition url (r : ArxivRequestData) : string :=
  baseUrl ++ "?search_query=" ++ encodeURIComponent (searchQuery r)
  ++ "&start=0&max_results=" ++ string_of_Z (default 10 (maxResults r))
  ++ "&sortBy=" ++ SortBy_text (default relevance (sortBy r))
  ++ "&sortOrder=" ++ SortOrder_text (default descending (sortOrder r)).

(** The callback of [entries.map]: one feed entry to one [ArxivPaper]. *)
Definition paper (entry : value) : completion value :=
  let* author := get entry "author" in
  let* authors :=
    (if isArray author
     then call_map "entry.author" author (fun author => get author "name")
     else let* name := get author "name" in Normal [name]) in
  let* category := get entry "category" in
  let* categories :=
    (if isArray category
     then call_map "entry.category" category (fun cat => get cat "term")
     else let* term := get category "term" in Normal [term]) in
  let* doi := get entry "arxiv:doi" in
  let* id := get entry "id" in
  let* journalRef := get entry "arxiv:journal_ref" in
  let* link := get entry "link" in
  let* pdf := call_find "entry.link" link
                (fun link => let* t := get link "title" in Normal (strict_eq_str t "pdf")) in
  let* pdfUrl := get pdf "href" in
  let* publishedDate := get entry "published" in
  let* summary0 := get entry "summary" in
  let* summary := call_trim "entry.summary" summary0 in
  let* title0 := get entry "title" in
  let* title := call_trim "entry.title" title0 in
  let* updatedDate := get entry "updated" in
  Normal (Obj [("authors", Arr authors);
               ("categories", Arr categories);
               ("doi", doi);
               ("id", id);
               ("journalRef", journalRef);
               ("pdfUrl", pdfUrl);
               ("publishedDate", publishedDate);
               ("summary", summary);
               ("title", title);
               ("updatedDate", updatedDate)]).

Definition headers : list (string * string) :=
  [("Cache-Control", "max-age=3600"); ("Content-Type", "application/json")].

(** From the parsed feed to the response. *)
Definition respond (maxResults : Z) (result : value) : completion Response :=
  let* feed := get result "feed" in
  let* entry := get feed "entry" in
  let entries := or_else entry (Arr []) in
  let* papers := call_map "entries" entries paper in
  let* counter := get feed "opensearch:totalResults" in
  let* counter0 := get_0 counter in
  let responseData :=
    Obj [("nextCursor",
          if Z.of_nat (List.length papers) =? maxResults
          then Str (string_of_Z maxResults) else Undefined);
         ("papers", Arr papers);
         ("totalResults", Num (parseInt counter0))] in
  Normal (JsonResponse (JSON_tree responseData) headers).

(** The body of the [try] block. *)
Definition pipeline (up : Upstream) (req : Request ArxivRequestData) : io Response :=
  do r <- lift (json req);
  do _ <- await_rateLimit;
  do data <- fetch up (url r);
  do result <- lift (parser_parse up data);
  lift (respond (default 10 (maxResults r)) result).

Definition handler (up : Upstream) (req : Request ArxivRequestData)
  : list effect * Response :=
  if negb (method req =? "POST")%string then
    ([], ErrorResponse MethodNotAllowed None)
  else
    match pipeline up req with
    | (t, Normal response) => (t, response)
    | (t, Throw error) =>
        (t, ErrorResponse InternalServerError
              (Some (catch_message "Unknown error occurred" error)))
    end.

End Arxiv.

(** ** The PubMed handler *)

Module Pubmed.
Import JS Edge.

Inductive SortBy := relevance | pub_date.

Record PubMedRequestData := {
  maxResults : option Z;
  query : string;
  sortBy : option SortBy;
  yearEnd : option Z;
  yearStart : option Z
}.

Definition RATE_LIMIT : Z := 100.

Definition default {A} (d : A) (o : option A) : A :=
  match o with
  | Some a => a
  | None => d
  end.

(** [process.env.PUBMED_API_KEY || '...']. *)
Definition API_KEY (PUBMED_API_KEY : option string) : string :=
  match PUBMED_API_KEY with
  | Some k => if (k =? "")%string then "6e4b525d4cde75d09925342b1681e66ef808" else k
  | None => "6e4b525d4cde75d09925342b1681e66ef808"
  end.

(** The [dateFilter] array after the two pushes. *)
Definition dateFilter (yearStart yearEnd : option Z) : list string :=
  List.app
    (if given yearStart then [year_text yearStart ++ "[PDAT]"] else [])
    (if given yearEnd then [year_text yearEnd ++ "[PDAT]"] else []).

Definition searchQuery (r : PubMedRequestData) : string :=
  if given (yearStart r) || given (yearEnd r) then
    "(" ++ query r ++ ") AND ("
    ++ join_strings " : " (dateFilter (yearStart r) (yearEnd r)) ++ ")"
  else query r.

Definition baseUrl : string := "https://eutils.ncbi.nlm.nih.gov/entrez/eutils".

Definition searchUrl (key : string) (r : PubMedRequestData) : string :=
  baseUrl ++ "/esearch.fcgi?db=pubmed&term=" ++ encodeURIComponent (searchQuery r)
  ++ "&retmax=" ++ string_of_Z (default 10 (maxResults r))
  ++ "&sort=" ++ match default relevance (sortBy r) with
                 | relevance => ""
                 | pub_date => "pub_date"
                 end
  ++ "&retmode=xml&api_key=" ++ key.

Definition fetchUrl (key : string) (ids : string) : string :=
  baseUrl ++ "/efetch.fcgi?db=pubmed&id=" ++ ids ++ "&retmode=xml&api_key=" ++ key.

(** The callback of [PubmedArticle.map]: one article to one [PubMedPaper]. *)
Definition paper (article : value) : completion value :=
  let* medline := get article "MedlineCitation" in
  let* articleData := get medline "Article" in
  let* eLocationID := get articleData "ELocationID" in
  let* doi :=
    (if isArray eLocationID then
       let* doiLocation :=
         call_find "articleData.ELocationID" eLocationID
           (fun id => let* t := get id "EIdType" in Normal (strict_eq_str t "doi")) in
       let* text := get_opt doiLocation "_text" in
       Normal (or_else text (Str ""))
     else
       let* t := get_opt eLocationID "EIdType" in
       if strict_eq_str t "doi" then
         let* text := get eLocationID "_text" in
         Normal (or_else text (Str ""))
       else Normal (Str "")) in
  let* authorList0 := get articleData "AuthorList" in
  let* author := get_opt authorList0 "Author" in
  let* authors :=
    (if truthy author then
       let authorList := if isArray author then author else Arr [author] in
       call_map "authorList" authorList
         (fun author =>
            let* lastName := get author "LastName" in
            let* foreName := get author "ForeName" in
            Normal (Str (ToString (or_else lastName (Str "")) ++ " "
                         ++ ToString (or_else foreName (Str "")))))
     else Normal []) in
  let* abstract0 := get articleData "Abstract" in
  let* abstractText := get_opt abstract0 "AbstractText" in
  let* journal := get articleData "Journal" in
  let* journalTitle := get journal "Title" in
  let* pmid := get medline "PMID" in
  let* journalIssue := get journal "JournalIssue" in
  let* pubDate := get journalIssue "PubDate" in
  let* year := get pubDate "Year" in
  let* title := get articleData "ArticleTitle" in
  Normal (Obj [("abstract", or_else abstractText (Str ""));
               ("authors", Arr authors);
               ("doi", doi);
               ("journal", journalTitle);
               ("pmid", pmid);
               ("publishDate", year);
               ("title", title)]).

Definition headers : list (string * string) :=
  [("Cache-Control", "max-age=3600"); ("Content-Type", "application/json")].

(** The response of the early return taken when [!pmids?.length]. *)
Definition emptyResponse : Response :=
  JsonResponse (JSON_tree (Obj [("papers", Arr []); ("totalResults", Num (Int 0))]))
    [("Content-Type", "application/json")].

(** [searchResult.eSearchResult.IdList.Id]. *)
Definition pmids_of (searchResult : value) : completion value :=
  let* eSearchResult := get searchResult "eSearchResult" in
  let* idList := get eSearchResult "IdList" in
  get idList "Id".

(** From the parsed detail document to the response. *)
Definition respond (searchResult fetchResult : value) : completion Response :=
  let* articleSet := get fetchResult "PubmedArticleSet" in
  let* articles := get articleSet "PubmedArticle" in
  let* papers := call_map "fetchResult.PubmedArticleSet.PubmedArticle" articles paper in
  let* eSearchResult := get searchResult "eSearchResult" in
  let* count := get eSearchResult "Count" in
  let responseData :=
    Obj [("papers", Arr papers); ("totalResults", Num (ToNumber count))] in
  Normal (JsonResponse (JSON_tree responseData) headers).

(** The body of the [try] block. *)
Definition pipeline (key : string) (up : Upstream) (req : Request PubMedRequestData)
  : io Response :=
  do r <- lift (json req);
  do _ <- await_rateLimit;
  do searchData <- fetch up (searchUrl key r);
  do searchResult <- lift (parser_parse up searchData);
  do pmids <- lift (pmids_of searchResult);
  do len <- lift (get_opt pmids "length");
  if negb (truthy len) then ret emptyResponse
  else
    do ids <- lift (call_join "pmids" pmids ",");
    do _ <- await_rateLimit;
    do fetchData <- fetch up (fetchUrl key ids);
    do fetchResult <- lift (parser_parse up fetchData);
    lift (respond searchResult fetchResult).

Definition handler (PUBMED_API_KEY : option string) (up : Upstream)
  (req : Request PubMedRequestData) : list effect * Response :=
  if negb (method req =? "POST")%string then
    ([], ErrorResponse MethodNotAllowed None)
  else
    match pipeline (API_KEY PUBMED_API_KEY) up req with
    | (t, Normal response) => (t, response)
    | (t, Throw error) =>
        (t, ErrorResponse InternalServerError (Some (catch_message "未知错误" error)))
    end.

End Pubmed.

(** ** Vocabulary of the statements *)

Module Spec.
Import JS Edge.

Definition first_char (s : string) : option ascii :=
  match s with
  | "" => None
  | String c _ => Some c
  end.

Fixpoint last_char (s : string) : option ascii :=
  match s with
  | "" => None
  | String c "" => Some c
  | String _ r => last_char r
  end.


(** No white space at either end. *)
Definition trimmed (s : string) : Prop :=
  (forall c, first_char s = Some c -> is_space c = false) /\
  (forall c, last_char s = Some c -> is_space c = false).

(** [v.k1.k2...]. *)
Fixpoint get_path (v : value) (ks : list string) : completion value :=
  match ks with
  | [] => Normal v
  | k :: r => let* w := get v k in get_path w r
  end.

(** [word] occurs in [s]. *)
Fixpoint contains (word s : string) : bool :=
  match s with
  | "" => (word =? "")%string
  | String _ r => String.prefix word s || contains word r
  end.

(** The property [k] of a record the handlers built. *)
Definition field (k : string) (v : value) : value :=
  match v with
  | Obj ps => lookup k ps
  | _ => Undefined
  end.

(** [JSON.stringify] of a number. *)
Definition json_number (n : number) : value :=
  match n with
  | Int z => Num (Int z)
  | NaN => Null
  end.

(** Every [axios.get] directly follows a wait on the limiter. *)
Fixpoint gated (t : list effect) : bool :=
  match t with
  | [] => true
  | AwaitSlot :: HttpGet _ :: r => gated r
  | _ => false
  end.

Definition is_get (e : effect) : bool :=
  match e with
  | HttpGet _ => true
  | AwaitSlot => false
  end.

(** The number of outbound requests in a trace. *)
Definition requests (t : list effect) : nat := List.length (filter is_get t).

(** The field prefix as the specification lists it. *)
Definition prefix (f : option Arxiv.SearchField) : string :=
  match f with
  | Some Arxiv.title => "ti:"
  | Some Arxiv.author => "au:"
  | Some Arxiv.abstract => "abs:"
  | _ => "all:"
  end.

(** The arXiv query as the specification words it: a bound that is present
    contributes its clause. *)
Definition arxiv_query_spec (r : Arxiv.ArxivRequestData) : string :=
  let fq := prefix (Arxiv.searchField r) ++ Arxiv.query r in
  match Arxiv.yearStart r, Arxiv.yearEnd r with
  | None, None => fq
  | Some ys, None =>
      "(" ++ fq ++ ") AND ("
      ++ ("submittedDate:[" ++ string_of_Z ys ++ "0101 TO 99991231]") ++ ")"
  | None, Some ye =>
      "(" ++ fq ++ ") AND ("
      ++ ("submittedDate:[00000101 TO " ++ string_of_Z ye ++ "1231]") ++ ")"
  | Some ys, Some ye =>
      "(" ++ fq ++ ") AND ("
      ++ ("submittedDate:[" ++ string_of_Z ys ++ "0101 TO 99991231]") ++ " AND "
      ++ ("submittedDate:[00000101 TO " ++ string_of_Z ye ++ "1231]") ++ ")"
  end.

(** A bound of 0 read as no bound. *)
Definition nonzero (year : option Z) : option Z :=
  match year with
  | Some 0 => None
  | _ => year
  end.

Definition arxiv_effective (r : Arxiv.ArxivRequestData) : Arxiv.ArxivRequestData :=
  {| Arxiv.maxResults := Arxiv.maxResults r;
     Arxiv.query := Arxiv.query r;
     Arxiv.searchField := Arxiv.searchField r;
     Arxiv.sortBy := Arxiv.sortBy r;
     Arxiv.sortOrder := Arxiv.sortOrder r;
     Arxiv.yearEnd := nonzero (Arxiv.yearEnd r);
     Arxiv.yearStart := nonzero (Arxiv.yearStart r) |}.

Definition PDAT (year : option Z) : string :=
  match year with
  | Some y => string_of_Z y ++ "[PDAT]"
  | None => ""
  end.

(** The PubMed query as the specification words it: the two bounds around
    the range separator, an absent bound left empty. *)
Definition pubmed_query_spec (r : Pubmed.PubMedRequestData) : string :=
  match Pubmed.yearStart r, Pubmed.yearEnd r with
  | None, None => Pubmed.query r
  | ys, ye =>
      "(" ++ Pubmed.query r ++ ") AND (" ++ PDAT ys ++ " : " ++ PDAT ye ++ ")"
  end.

(** What the PubMed translator builds: the separator appears only between
    two bounds. *)
Definition pubmed_query_built (r : Pubmed.PubMedRequestData) : string :=
  match nonzero (Pubmed.yearStart r), nonzero (Pubmed.yearEnd r) with
  | None, None => Pubmed.query r
  | Some ys, None => "(" ++ Pubmed.query r ++ ") AND (" ++ PDAT (Some ys) ++ ")"
  | None, Some ye => "(" ++ Pubmed.query r ++ ") AND (" ++ PDAT (Some ye) ++ ")"
  | Some ys, Some ye =>
      "(" ++ Pubmed.query r ++ ") AND ("
      ++ PDAT (Some ys) ++ " : " ++ PDAT (Some ye) ++ ")"
  end.


(** The PubMed pipeline up to the parsed search result. *)
Definition pubmed_searched (key : string) (up : Upstream)
  (req : Request Pubmed.PubMedRequestData) (searchResult : value) : Prop :=
  exists r data,
    json req = Normal r
    /\ axios_get up (Pubmed.searchUrl key r) = Normal data
    /\ parser_parse up data = Normal searchResult.


(** The internal-server-error envelope for a caught [error]. *)
Definition internal_error (fallback : string) (error : exn) : Response :=
  ErrorResponse InternalServerError (Some (catch_message fallback error)).

(** What holds of the limiter as long as calls enter one at a time: the
    grants so far are spaced, the last one is what [lastRequestTime] holds,
    and a suspended call is not due before the interval has passed. *)
Definition limiter_inv (RATE_LIMIT : Z) (s : Limiter.state) : Prop :=
  Limiter.spaced RATE_LIMIT (Limiter.grants s)
  /\ match Limiter.grants s with
     | g :: _ => Limiter.lastRequestTime s = g
     | [] => True
     end
  /\ match Limiter.timers s with
     | [] => True
     | [due] => Limiter.lastRequestTime s + RATE_LIMIT <= due
     | _ => False
     end.

Definition is_undefined (v : value) : bool :=
  match v with
  | Undefined => true
  | _ => false
  end.

Fixpoint all_chars (p : ascii -> bool) (s : string) : bool :=
  match s with
  | "" => true
  | String c r => p c && all_chars p r
  end.

(** The characters [encodeURIComponent] writes. *)
Definition url_safe (c : ascii) : bool := unreserved c || (c =? "%")%char.

Definition hex_value (c : ascii) : nat :=
  let n := nat_of_ascii c in
  if (n <? 58)%nat then (n - 48)%nat else (n - 55)%nat.

(** Percent-decoding, as the upstream reads a query parameter back. *)
Fixpoint percent_decode (s : string) : string :=
  match s with
  | "" => ""
  | String c r =>
      if (c =? "%")%char then
        match r with
        | String h (String l r') =>
            String (ascii_of_nat (16 * hex_value h + hex_value l)) (percent_decode r')
        | _ => s
        end
      else String c (percent_decode r)
  end.

(** The arXiv pipeline up to the parsed feed. *)
Definition arxiv_parsed (up : Upstream) (req : Request Arxiv.ArxivRequestData)
  (r : Arxiv.ArxivRequestData) (result : value) : Prop :=
  json req = Normal r
  /\ exists data,
      axios_get up (Arxiv.url r) = Normal data
      /\ parser_parse up data = Normal result.

(** The PubMed pipeline up to the parsed detail document. *)
Definition pubmed_fetched (key : string) (up : Upstream)
  (req : Request Pubmed.PubMedRequestData) (searchResult fetchResult : value) : Prop :=
  pubmed_searched key up req searchResult
  /\ exists pmids len ids fetched,
      Pubmed.pmids_of searchResult = Normal pmids
      /\ get_opt pmids "length" = Normal len
      /\ truthy len = true
      /\ call_join "pmids" pmids "," = Normal ids
      /\ axios_get up (Pubmed.fetchUrl key ids) = Normal fetched
      /\ parser_parse up fetched = Normal fetchResult.

(** What holds of the limiter in every run that starts at a clock reading
    that is not negative: the grants so far are in time order and not later
    than the clock, [lastRequestTime] is not later than the clock, and every
    suspended call is due within one interval. *)
Definition limiter_clock_inv (RATE_LIMIT : Z) (s : Limiter.state) : Prop :=
  Limiter.spaced 0 (Limiter.grants s)
  /\ match Limiter.grants s with
     | g :: _ => g <= Limiter.clock s
     | [] => True
     end
  /\ Limiter.lastRequestTime s <= Limiter.clock s
  /\ Forall (fun due => due <= Limiter.clock s + RATE_LIMIT) (Limiter.timers s).

End Spec.

(** ** Sample inputs *)

Module Sample.
Import JS Edge.

Definition arxiv_request (yearStart yearEnd : option Z) : Arxiv.ArxivRequestData :=
  {| Arxiv.maxResults := Some 2;
     Arxiv.query := "quantum computing";
     Arxiv.searchField := Some Arxiv.title;
     Arxiv.sortBy := None;
     Arxiv.sortOrder := None;
     Arxiv.yearEnd := yearEnd;
     Arxiv.yearStart := yearStart |}.

Definition pubmed_request (maxResults yearStart yearEnd : option Z)
  : Pubmed.PubMedRequestData :=
  {| Pubmed.maxResults := maxResults;
     Pubmed.query := "cancer";
     Pubmed.sortBy := None;
     Pubmed.yearEnd := yearEnd;
     Pubmed.yearStart := yearStart |}.

Definition post {Body} (b : Body) : Request Body :=
  {| method := "POST"; json := Normal b |}.

(** An upstream whose document for a URL is the URL itself, parsed by
    [tree]. *)
Definition serving (tree : string -> completion value) : Upstream :=
  {| axios_get := fun url => Normal url; parser_parse := tree |}.


(** [<entry>] with [authors] as its author elements. *)
Definition entry (authors : value) : value :=
  Obj [("id", Str "http://arxiv.org/abs/2001.00001v1");
       ("updated", Str "2020-01-02T00:00:00Z");
       ("published", Str "2020-01-01T00:00:00Z");
       ("title", Str "  Quantum computing
  in practice ");
       ("summary", Str " A survey. ");
       ("author", authors);
       ("link", Arr [Obj [("href", Str "http://arxiv.org/abs/2001.00001v1");
                          ("rel", Str "alternate")];
                     Obj [("title", Str "pdf");
                          ("href", Str "http://arxiv.org/pdf/2001.00001v1")]]);
       ("category", Obj [("term", Str "quant-ph")])].

Definition one_author : value := Obj [("name", Str "Ada")].
Definition two_authors : value :=
  Arr [Obj [("name", Str "Ada")]; Obj [("name", Str "Alan")]].

Definition feed (entries : list (string * value)) : value :=
  Obj [("feed", Obj (("opensearch:totalResults", Arr [Str "1"]) :: entries))].

(** A feed with exactly one [<entry>]: the parser yields the entry itself,
    not an array. *)
Definition feed_single_entry : value := feed [("entry", entry one_author)].

Definition feed_two_entries : value :=
  feed [("entry", Arr [entry one_author; entry two_authors])].


Definition esearch (count : Z) (idList : value) : value :=
  Obj [("eSearchResult", Obj [("Count", Num (Int count)); ("IdList", idList)])].

Definition article (title : value) : value :=
  Obj [("MedlineCitation",
        Obj [("PMID", Num (Int 31452104));
             ("Article",
              Obj [("Journal",
                    Obj [("Title", Str "Nature");
                         ("JournalIssue",
                          Obj [("PubDate", Obj [("Year", Num (Int 2020))])])]);
                   ("ArticleTitle", title);
                   ("Abstract", Obj [("AbstractText", Str " Background. ")]);
                   ("AuthorList",
                    Obj [("Author", Obj [("LastName", Str "Doe");
                                         ("ForeName", Str "Jane")])])])])].

Definition efetch (articles : value) : value :=
  Obj [("PubmedArticleSet", Obj [("PubmedArticle", articles)])].

(** Answers the search endpoint with [search] and the detail endpoint with
    [fetched]; the two are told apart by the URL, which the sample upstream
    hands on as the document. *)
Definition pubmed_upstream (search fetched : value) : Upstream :=
  serving (fun doc =>
             if Spec.contains "esearch" doc then Normal search else Normal fetched).

(** An article with [eLocationID] as its location identifiers. *)
Definition article_with_ids (eLocationID : value) : value :=
  Obj [("MedlineCitation",
        Obj [("PMID", Num (Int 31452104));
             ("Article",
              Obj [("Journal",
                    Obj [("Title", Str "Nature");
                         ("JournalIssue",
                          Obj [("PubDate", Obj [("Year", Num (Int 2020))])])]);
                   ("ArticleTitle", Str "Gene therapy");
                   ("ELocationID", eLocationID)])])].

Definition two_ids : value :=
  Arr [Obj [("EIdType", Str "pii"); ("_text", Str "S0140-6736(20)30183-5")];
       Obj [("EIdType", Str "doi"); ("_text", Str "10.1000/j.1")]].

End Sample.

(** * Properties *)

Import JS Edge.

(** ** Sequencing *)

Lemma bind_Normal {A B} (c : completion A) (k : A -> completion B) (b : B) :
  bind c k = Normal b -> exists a, c = Normal a /\ k a = Normal b.
Proof.
  destruct c as [a|e]; simpl; intros H.
  - exists a; split; [reflexivity | exact H].
  - discriminate H.
Qed.

Lemma if_Normal {A} (b : bool) (x y : completion A) (r : A) :
  (if b then x else y) = Normal r ->
  (b = true /\ x = Normal r) \/ (b = false /\ y = Normal r).
Proof. destruct b; intros H; [left | right]; split; auto. Qed.

(** Splits a successful chain of [let*] into its steps. *)
Ltac unbind H :=
  let a := fresh "v" in
  let E := fresh "E" in
  apply bind_Normal in H; destruct H as (a & E & H).

Ltac unbind_all H := repeat (unbind H).

Lemma mapM_length {A B} (f : A -> completion B) (l : list A) (r : list B) :
  mapM f l = Normal r -> List.length r = List.length l.
Proof.
  revert r; induction l as [|x l IH]; simpl; intros r H.
  - inversion H; reflexivity.
  - unbind H. unbind H. inversion H; subst; simpl. f_equal. apply IH. assumption.
Qed.

(** ** [trim] *)



Lemma trimStart_first (s : string) (c : ascii) :
  Spec.first_char (trimStart s) = Some c -> is_space c = false.
Proof.
  induction s as [|a s IH]; simpl; [discriminate|].
  destruct (is_space a) eqn:Ea; [exact IH|].
  simpl; intros H; inversion H; subst; exact Ea.
Qed.

Lemma trimEnd_first (s : string) (c : ascii) :
  Spec.first_char (trimEnd s) = Some c -> Spec.first_char s = Some c.
Proof.
  destruct s as [|a s]; simpl; [discriminate|].
  destruct (trimEnd s); [destruct (is_space a)|]; simpl; congruence.
Qed.

Lemma trimEnd_last (s : string) (c : ascii) :
  Spec.last_char (trimEnd s) = Some c -> is_space c = false.
Proof.
  induction s as [|a s IH]; simpl; [discriminate|].
  destruct (trimEnd s) as [|b t] eqn:Et.
  - destruct (is_space a) eqn:Ea; simpl; [discriminate|].
    intros H; inversion H; subst; exact Ea.
  - exact IH.
Qed.

Lemma trim_trimmed (s : string) : Spec.trimmed (trim s).
Proof.
  split; intros c H; unfold trim in H.
  - apply trimEnd_first in H. exact (trimStart_first _ _ H).
  - exact (trimEnd_last _ _ H).
Qed.


(** ** The normalizers *)

Lemma call_trim_Normal (name : string) (v x : value) :
  call_trim name v = Normal x -> exists s, v = Str s /\ x = Str (trim s).
Proof.
  destruct v; simpl; intros H; try discriminate H.
  inversion H; eauto.
Qed.

(** What an [ArxivPaper] holds, in terms of the entry it was made from. *)
Lemma arxiv_paper_fields (entry p : value) :
  Arxiv.paper entry = Normal p ->
  exists title0 summary0 authors categories,
    get entry "title" = Normal (Str title0)
    /\ get entry "summary" = Normal (Str summary0)
    /\ Spec.field "title" p = Str (trim title0)
    /\ Spec.field "summary" p = Str (trim summary0)
    /\ get entry "published" = Normal (Spec.field "publishedDate" p)
    /\ get entry "updated" = Normal (Spec.field "updatedDate" p)
    /\ Spec.field "authors" p = Arr authors
    /\ Spec.field "categories" p = Arr categories.
Proof.
  unfold Arxiv.paper; intros H. unbind_all H.
  inversion H; subst; clear H.
  repeat match goal with
         | T : call_trim _ _ = Normal _ |- _ =>
             apply call_trim_Normal in T; destruct T as (? & ? & ?); subst
         end.
  do 4 eexists; repeat split; try eassumption; reflexivity.
Qed.

(** The authors of an [ArxivPaper]: the names of the author elements, one
    or many. *)
Lemma arxiv_paper_authors (entry p author : value) :
  Arxiv.paper entry = Normal p ->
  get entry "author" = Normal author ->
  exists names,
    Spec.field "authors" p = Arr names
    /\ match author with
       | Arr l => mapM (fun a => get a "name") l = Normal names
       | _ => exists name, get author "name" = Normal name /\ names = [name]
       end.
Proof.
  unfold Arxiv.paper; intros H Ha. rewrite Ha in H; simpl in H.
  unbind H. exists v; split.
  - unbind_all H. inversion H; reflexivity.
  - clear H. destruct author; simpl in E; try discriminate E; try exact E.
    all: inversion E; subst; eexists; split; reflexivity.
Qed.

(** What a [PubMedPaper] holds, in terms of the article it was made from. *)
Lemma pubmed_paper_fields (article p : value) :
  Pubmed.paper article = Normal p ->
  Spec.get_path article ["MedlineCitation"; "Article"; "ArticleTitle"]
  = Normal (Spec.field "title" p)
  /\ Spec.get_path article
       ["MedlineCitation"; "Article"; "Journal"; "JournalIssue"; "PubDate"; "Year"]
     = Normal (Spec.field "publishDate" p)
  /\ exists abstract0 text,
       Spec.get_path article ["MedlineCitation"; "Article"; "Abstract"] = Normal abstract0
       /\ get_opt abstract0 "AbstractText" = Normal text
       /\ Spec.field "abstract" p = or_else text (Str "").
Proof.
  unfold Pubmed.paper; intros H.
  unbind H. unbind H. unbind H. unbind H. unbind H. unbind H. unbind H. unbind_all H.
  inversion H; subst; clear H. simpl Spec.get_path. simpl Spec.field.
  repeat match goal with
         | E : get _ _ = Normal _ |- _ => rewrite E; simpl bind; clear E
         end.
  split; [reflexivity|]. split; [reflexivity|].
  eexists; eexists; split; [reflexivity|]. split; [eassumption | reflexivity].
Qed.

(** C7, as the code has it.  Every paper of the arXiv normalizer has its
    title and summary trimmed of surrounding white space, and its two dates
    are the entry's [published] and [updated] values as they are.  Every
    paper of the PubMed normalizer carries the article title, the abstract
    text (or the empty string) and the publication year as they are, with no
    trimming. *)
Theorem text_fields_and_dates :
  (forall entry p,
      Arxiv.paper entry = Normal p ->
      exists title0 summary0,
        get entry "title" = Normal (Str title0)
        /\ get entry "summary" = Normal (Str summary0)
        /\ Spec.field "title" p = Str (trim title0)
        /\ Spec.trimmed (trim title0)
        /\ Spec.field "summary" p = Str (trim summary0)
        /\ Spec.trimmed (trim summary0)
        /\ get entry "published" = Normal (Spec.field "publishedDate" p)
        /\ get entry "updated" = Normal (Spec.field "updatedDate" p))
  /\ (forall article p,
      Pubmed.paper article = Normal p ->
      Spec.get_path article ["MedlineCitation"; "Article"; "ArticleTitle"]
      = Normal (Spec.field "title" p)
      /\ Spec.get_path article
           ["MedlineCitation"; "Article"; "Journal"; "JournalIssue"; "PubDate"; "Year"]
         = Normal (Spec.field "publishDate" p)
      /\ exists abstract0 text,
           Spec.get_path article ["MedlineCitation"; "Article"; "Abstract"]
           = Normal abstract0
           /\ get_opt abstract0 "AbstractText" = Normal text
           /\ Spec.field "abstract" p = or_else text (Str "")).
Proof.
  split.
  - intros entry p H.
    destruct (arxiv_paper_fields entry p H)
      as (t & s & _ & _ & Ht & Hs & Hti & Hsu & Hp & Hu & _).
    exists t, s. repeat split; auto; apply trim_trimmed.
  - exact pubmed_paper_fields.
Qed.

Lemma text_fields_and_dates_witness :
  (exists p,
      Arxiv.paper (Sample.entry Sample.one_author) = Normal p
      /\ Spec.field "title" p = Str "Quantum computing
  in practice"
      /\ get (Sample.entry Sample.one_author) "published"
         = Normal (Spec.field "publishedDate" p))
  /\ (exists p,
      Pubmed.paper (Sample.article (Str "Gene therapy")) = Normal p
      /\ Spec.get_path (Sample.article (Str "Gene therapy"))
           ["MedlineCitation"; "Article"; "ArticleTitle"]
         = Normal (Spec.field "title" p)).
Proof.
  split.
  - eexists. split; [reflexivity|].
    destruct (proj1 text_fields_and_dates (Sample.entry Sample.one_author) _ eq_refl)
      as (t & s & Ht & _ & Hf & _ & _ & _ & Hp & _).
    split; [|exact Hp].
    rewrite Hf. simpl in Ht. inversion Ht. reflexivity.
  - eexists. split; [reflexivity|].
    exact (proj1 (proj2 text_fields_and_dates (Sample.article (Str "Gene therapy")) _ eq_refl)).
Defined.

(** C7 as stated fails on the PubMed side: a title and an abstract that
    reach the normalizer with white space around them leave it unchanged. *)
Lemma pubmed_text_not_trimmed :
  exists p,
    Pubmed.paper (Sample.article (Str " Gene therapy ")) = Normal p
    /\ Spec.field "title" p = Str " Gene therapy "
    /\ ~ Spec.trimmed " Gene therapy "
    /\ Spec.field "abstract" p = Str " Background. "
    /\ ~ Spec.trimmed " Background. ".
Proof.
  eexists. split; [reflexivity|].
  split; [reflexivity|]. split; [|split; [reflexivity|]].
  - intros [H _]. specialize (H " "%char eq_refl). discriminate H.
  - intros [H _]. specialize (H " "%char eq_refl). discriminate H.
Qed.

(** ** The handlers, stage by stage *)

Lemma method_test (m : string) :
  negb (m =? "POST")%string = false <-> m = "POST".
Proof.
  rewrite negb_false_iff. apply String.eqb_eq.
Qed.

(** Once the request is a POST whose body, fetch and parse succeed, the
    arXiv handler's answer is decided by [respond]. *)
Lemma arxiv_handler_run (up : Upstream) (req : Request Arxiv.ArxivRequestData)
      (r : Arxiv.ArxivRequestData) (data : string) (result : value) :
  method req = "POST" ->
  json req = Normal r ->
  axios_get up (Arxiv.url r) = Normal data ->
  parser_parse up data = Normal result ->
  Arxiv.handler up req =
  ([AwaitSlot; HttpGet (Arxiv.url r)],
   match Arxiv.respond (Arxiv.default 10 (Arxiv.maxResults r)) result with
   | Normal response => response
   | Throw e =>
       ErrorResponse InternalServerError
         (Some (catch_message "Unknown error occurred" e))
   end).
Proof.
  intros Hm Hj Hg Hp. unfold Arxiv.handler, Arxiv.pipeline.
  apply method_test in Hm. rewrite Hm, Hj. simpl. unfold fetch. rewrite Hg. simpl.
  rewrite Hp. simpl.
  destruct (Arxiv.respond _ result); reflexivity.
Qed.

(** A JSON answer of the arXiv handler comes from a run in which every
    stage succeeded. *)
Lemma arxiv_success (up : Upstream) (req : Request Arxiv.ArxivRequestData)
      (t : list effect) (body : value) (hs : list (string * string)) :
  Arxiv.handler up req = (t, JsonResponse body hs) ->
  method req = "POST" /\
  exists r data result,
    json req = Normal r
    /\ axios_get up (Arxiv.url r) = Normal data
    /\ parser_parse up data = Normal result
    /\ Arxiv.respond (Arxiv.default 10 (Arxiv.maxResults r)) result
       = Normal (JsonResponse body hs)
    /\ t = [AwaitSlot; HttpGet (Arxiv.url r)].
Proof.
  unfold Arxiv.handler.
  destruct (negb (method req =? "POST")%string) eqn:Hm; [discriminate|].
  apply method_test in Hm. intros H. split; [exact Hm|].
  unfold Arxiv.pipeline, fetch in H.
  destruct (json req) as [r|e] eqn:Hj; simpl in H; [|discriminate H].
  destruct (axios_get up (Arxiv.url r)) as [data|e] eqn:Hg; simpl in H; [|discriminate H].
  destruct (parser_parse up data) as [result|e] eqn:Hp; simpl in H; [|discriminate H].
  destruct (Arxiv.respond _ result) as [resp|e] eqn:Hr; simpl in H; [|discriminate H].
  inversion H; subst. exists r, data, result. auto.
Qed.

(** The PubMed handler up to the test of the ID list. *)
Lemma pubmed_handler_search (env : option string) (up : Upstream)
      (req : Request Pubmed.PubMedRequestData) (r : Pubmed.PubMedRequestData)
      (data : string) (searchResult pmids len : value) :
  method req = "POST" ->
  json req = Normal r ->
  axios_get up (Pubmed.searchUrl (Pubmed.API_KEY env) r) = Normal data ->
  parser_parse up data = Normal searchResult ->
  Pubmed.pmids_of searchResult = Normal pmids ->
  get_opt pmids "length" = Normal len ->
  truthy len = false ->
  Pubmed.handler env up req =
  ([AwaitSlot; HttpGet (Pubmed.searchUrl (Pubmed.API_KEY env) r)], Pubmed.emptyResponse).
Proof.
  intros Hm Hj Hg Hp Hi Hl Ht. unfold Pubmed.handler, Pubmed.pipeline, fetch.
  apply method_test in Hm. rewrite Hm, Hj. simpl. rewrite Hg. simpl.
  rewrite Hp. simpl. rewrite Hi. simpl. rewrite Hl. simpl. rewrite Ht. reflexivity.
Qed.

(** The PubMed handler past the test of the ID list. *)
Lemma pubmed_handler_fetch (env : option string) (up : Upstream)
      (req : Request Pubmed.PubMedRequestData) (r : Pubmed.PubMedRequestData)
      (data : string) (searchResult pmids len : value) (ids fetched : string)
      (fetchResult : value) :
  method req = "POST" ->
  json req = Normal r ->
  axios_get up (Pubmed.searchUrl (Pubmed.API_KEY env) r) = Normal data ->
  parser_parse up data = Normal searchResult ->
  Pubmed.pmids_of searchResult = Normal pmids ->
  get_opt pmids "length" = Normal len ->
  truthy len = true ->
  call_join "pmids" pmids "," = Normal ids ->
  axios_get up (Pubmed.fetchUrl (Pubmed.API_KEY env) ids) = Normal fetched ->
  parser_parse up fetched = Normal fetchResult ->
  Pubmed.handler env up req =
  ([AwaitSlot; HttpGet (Pubmed.searchUrl (Pubmed.API_KEY env) r);
    AwaitSlot; HttpGet (Pubmed.fetchUrl (Pubmed.API_KEY env) ids)],
   match Pubmed.respond searchResult fetchResult with
   | Normal response => response
   | Throw e => ErrorResponse InternalServerError (Some (catch_message "未知错误" e))
   end).
Proof.
  intros Hm Hj Hg Hp Hi Hl Ht Hc Hf Hq. unfold Pubmed.handler, Pubmed.pipeline, fetch.
  apply method_test in Hm. rewrite Hm, Hj. simpl. rewrite Hg. simpl.
  rewrite Hp. simpl. rewrite Hi. simpl. rewrite Hl. simpl. rewrite Ht. simpl.
  rewrite Hc. simpl. rewrite Hf. simpl. rewrite Hq. simpl.
  destruct (Pubmed.respond searchResult fetchResult); reflexivity.
Qed.

(** A JSON answer of the PubMed handler is either the early empty answer or
    the answer of a run in which every stage succeeded. *)
Lemma pubmed_success (env : option string) (up : Upstream)
      (req : Request Pubmed.PubMedRequestData)
      (t : list effect) (body : value) (hs : list (string * string)) :
  Pubmed.handler env up req = (t, JsonResponse body hs) ->
  method req = "POST" /\
  exists r data searchResult pmids len,
    json req = Normal r
    /\ axios_get up (Pubmed.searchUrl (Pubmed.API_KEY env) r) = Normal data
    /\ parser_parse up data = Normal searchResult
    /\ Pubmed.pmids_of searchResult = Normal pmids
    /\ get_opt pmids "length" = Normal len
    /\ ((truthy len = false
         /\ JsonResponse body hs = Pubmed.emptyResponse
         /\ t = [AwaitSlot; HttpGet (Pubmed.searchUrl (Pubmed.API_KEY env) r)])
        \/
        (truthy len = true
         /\ exists ids fetched fetchResult,
             call_join "pmids" pmids "," = Normal ids
             /\ axios_get up (Pubmed.fetchUrl (Pubmed.API_KEY env) ids) = Normal fetched
             /\ parser_parse up fetched = Normal fetchResult
             /\ Pubmed.respond searchResult fetchResult = Normal (JsonResponse body hs)
             /\ t = [AwaitSlot; HttpGet (Pubmed.searchUrl (Pubmed.API_KEY env) r);
                     AwaitSlot; HttpGet (Pubmed.fetchUrl (Pubmed.API_KEY env) ids)])).
Proof.
  unfold Pubmed.handler.
  destruct (negb (method req =? "POST")%string) eqn:Hm; [discriminate|].
  apply method_test in Hm. intros H. split; [exact Hm|].
  unfold Pubmed.pipeline, fetch in H.
  destruct (json req) as [r|e] eqn:Hj; simpl in H; [|discriminate H].
  destruct (axios_get up (Pubmed.searchUrl _ r)) as [data|e] eqn:Hg; simpl in H;
    [|discriminate H].
  destruct (parser_parse up data) as [searchResult|e] eqn:Hp; simpl in H; [|discriminate H].
  destruct (Pubmed.pmids_of searchResult) as [pmids|e] eqn:Hi; simpl in H; [|discriminate H].
  destruct (get_opt pmids "length") as [len|e] eqn:Hl; simpl in H; [|discriminate H].
  exists r, data, searchResult, pmids, len. do 5 (split; [reflexivity || assumption|]).
  destruct (truthy len) eqn:Ht; simpl in H.
  - right. split; [reflexivity|].
    destruct (call_join "pmids" pmids ",") as [ids|e] eqn:Hc; simpl in H; [|discriminate H].
    destruct (axios_get up (Pubmed.fetchUrl _ ids)) as [fetched|e] eqn:Hf; simpl in H;
      [|discriminate H].
    destruct (parser_parse up fetched) as [fetchResult|e] eqn:Hq; simpl in H;
      [|discriminate H].
    destruct (Pubmed.respond searchResult fetchResult) as [resp|e] eqn:Hr; simpl in H;
      [|discriminate H].
    inversion H; subst. exists ids, fetched, fetchResult. auto.
  - left. inversion H; subst. auto.
Qed.

(** ** Shapes of repeated elements *)

(** C1 on the code: only the author and category elements are tested with
    [Array.isArray].  A feed with exactly one entry reaches [entries.map] as
    a bare object and the arXiv handler answers with an error; the same
    happens to a PubMed detail document with exactly one article; and a
    PubMed search with exactly one ID takes the early empty answer. *)
Theorem single_child_not_coerced :
  (forall ps,
      Arxiv.handler
        (Sample.serving (fun _ => Normal (Sample.feed [("entry", Obj ps)])))
        (Sample.post (Sample.arxiv_request None None))
      = ([AwaitSlot; HttpGet (Arxiv.url (Sample.arxiv_request None None))],
         ErrorResponse InternalServerError (Some "entries.map is not a function")))
  /\ (forall ps,
         snd (Pubmed.handler None
                (Sample.pubmed_upstream
                   (Sample.esearch 2 (Obj [("Id", Arr [Num (Int 31452104); Num (Int 31452105)])]))
                   (Sample.efetch (Obj ps)))
                (Sample.post (Sample.pubmed_request None None None)))
         = ErrorResponse InternalServerError
             (Some "fetchResult.PubmedArticleSet.PubmedArticle.map is not a function"))
  /\ Pubmed.handler None
       (Sample.pubmed_upstream
          (Sample.esearch 1 (Obj [("Id", Num (Int 31452104))]))
          (Sample.efetch (Sample.article (Str "Gene therapy"))))
       (Sample.post (Sample.pubmed_request None None None))
     = ([AwaitSlot;
         HttpGet (Pubmed.searchUrl (Pubmed.API_KEY None)
                    (Sample.pubmed_request None None None))],
        Pubmed.emptyResponse).
Proof.
  split; [|split].
  - intros ps. reflexivity.
  - intros ps. reflexivity.
  - reflexivity.
Qed.

(** With two entries, each with one or several authors, the same feed is
    normalized, and [authors] is a sequence in both papers. *)
Lemma authors_one_or_many :
  exists papers,
    Arxiv.respond 2 Sample.feed_two_entries
    = Normal (JsonResponse
                (Obj [("nextCursor", Str "2"); ("papers", Arr papers);
                      ("totalResults", Num (Int 1))])
                Arxiv.headers)
    /\ map (Spec.field "authors") papers
       = [Arr [Str "Ada"]; Arr [Str "Ada"; Str "Alan"]].
Proof.
  eexists. split; reflexivity.
Qed.

(** ** The PubMed ID list *)



(** C5 on the code: a search answer with exactly one ID reaches the handler
    as a bare number, which has no [length]; the handler takes the early
    empty answer and issues no detail request. *)
Theorem single_id_skips_detail_fetch (env : option string) (up : Upstream)
      (req : Request Pubmed.PubMedRequestData) (r : Pubmed.PubMedRequestData)
      (data : string) (searchResult : value) (id : number) :
  method req = "POST" ->
  json req = Normal r ->
  axios_get up (Pubmed.searchUrl (Pubmed.API_KEY env) r) = Normal data ->
  parser_parse up data = Normal searchResult ->
  Pubmed.pmids_of searchResult = Normal (Num id) ->
  Pubmed.handler env up req =
  ([AwaitSlot; HttpGet (Pubmed.searchUrl (Pubmed.API_KEY env) r)], Pubmed.emptyResponse)
  /\ Spec.requests (fst (Pubmed.handler env up req)) = 1%nat.
Proof.
  intros Hm Hj Hg Hp Hi.
  assert (H : Pubmed.handler env up req =
              ([AwaitSlot; HttpGet (Pubmed.searchUrl (Pubmed.API_KEY env) r)],
               Pubmed.emptyResponse))
    by (eapply pubmed_handler_search; eauto; reflexivity).
  split; [exact H|]. rewrite H. reflexivity.
Qed.

Lemma single_id_skips_detail_fetch_witness :
  Pubmed.handler None
    (Sample.pubmed_upstream
       (Sample.esearch 1 (Obj [("Id", Num (Int 31452104))]))
       (Sample.efetch (Sample.article (Str "Gene therapy"))))
    (Sample.post (Sample.pubmed_request None None None))
  = ([AwaitSlot;
      HttpGet (Pubmed.searchUrl (Pubmed.API_KEY None) (Sample.pubmed_request None None None))],
     Pubmed.emptyResponse)
  /\ Spec.requests
       (fst (Pubmed.handler None
               (Sample.pubmed_upstream
                  (Sample.esearch 1 (Obj [("Id", Num (Int 31452104))]))
                  (Sample.efetch (Sample.article (Str "Gene therapy"))))
               (Sample.post (Sample.pubmed_request None None None)))) = 1%nat.
Proof.
  apply (single_id_skips_detail_fetch None _ _
           (Sample.pubmed_request None None None)
           (Pubmed.searchUrl (Pubmed.API_KEY None) (Sample.pubmed_request None None None))
           (Sample.esearch 1 (Obj [("Id", Num (Int 31452104))]))
           (Int 31452104)); reflexivity.
Defined.

(** The same search answer with the ID kept as text: the text has a
    [length] but no [join], and the handler answers with an error, again
    without a detail request. *)
Lemma single_text_id_faults (env : option string) (up : Upstream)
      (req : Request Pubmed.PubMedRequestData) (r : Pubmed.PubMedRequestData)
      (data : string) (searchResult : value) (c : ascii) (s : string) :
  method req = "POST" ->
  json req = Normal r ->
  axios_get up (Pubmed.searchUrl (Pubmed.API_KEY env) r) = Normal data ->
  parser_parse up data = Normal searchResult ->
  Pubmed.pmids_of searchResult = Normal (Str (String c s)) ->
  Pubmed.handler env up req =
  ([AwaitSlot; HttpGet (Pubmed.searchUrl (Pubmed.API_KEY env) r)],
   Spec.internal_error "未知错误" (TypeError_call "pmids.join")).
Proof.
  intros Hm Hj Hg Hp Hi. unfold Pubmed.handler, Pubmed.pipeline, fetch.
  apply method_test in Hm. rewrite Hm, Hj. simpl. rewrite Hg. simpl.
  rewrite Hp. simpl. rewrite Hi. reflexivity.
Qed.

(** ** Response headers *)

(** Every JSON answer of the arXiv handler, and every JSON answer of the
    PubMed handler other than the early empty one, carries both headers. *)
Lemma json_response_headers :
  (forall up req t body hs,
      Arxiv.handler up req = (t, JsonResponse body hs) ->
      header "Content-Type" (JsonResponse body hs) = Some "application/json"
      /\ header "Cache-Control" (JsonResponse body hs) = Some "max-age=3600")
  /\
  (forall env up req t body hs,
      Pubmed.handler env up req = (t, JsonResponse body hs) ->
      JsonResponse body hs <> Pubmed.emptyResponse ->
      header "Content-Type" (JsonResponse body hs) = Some "application/json"
      /\ header "Cache-Control" (JsonResponse body hs) = Some "max-age=3600").
Proof.
  split.
  - intros up req t body hs H.
    destruct (arxiv_success _ _ _ _ _ H) as (_ & r & data & result & _ & _ & _ & Hr & _).
    unfold Arxiv.respond in Hr. unbind_all Hr. inversion Hr; subst. split; reflexivity.
  - intros env up req t body hs H Hne.
    destruct (pubmed_success _ _ _ _ _ _ H)
      as (_ & r & data & sr & pmids & len & _ & _ & _ & _ & _ & [(_ & He & _)|(_ & Hf)]).
    + contradiction.
    + destruct Hf as (ids & fetched & fr & _ & _ & _ & Hr & _).
      unfold Pubmed.respond in Hr. unbind_all Hr. inversion Hr; subst. split; reflexivity.
Qed.

(** C8 on the code: the early empty answer of the PubMed handler is JSON
    with the [Content-Type] header only; it has no [Cache-Control]. *)
Theorem empty_answer_lacks_cache_control (env : option string) (up : Upstream)
      (req : Request Pubmed.PubMedRequestData) (r : Pubmed.PubMedRequestData)
      (data : string) (searchResult pmids len : value) :
  method req = "POST" ->
  json req = Normal r ->
  axios_get up (Pubmed.searchUrl (Pubmed.API_KEY env) r) = Normal data ->
  parser_parse up data = Normal searchResult ->
  Pubmed.pmids_of searchResult = Normal pmids ->
  get_opt pmids "length" = Normal len ->
  truthy len = false ->
  let response := snd (Pubmed.handler env up req) in
  is_json_response response = true
  /\ header "Content-Type" response = Some "application/json"
  /\ header "Cache-Control" response = None
  /\ body_prop "papers" response = Arr []
  /\ body_prop "totalResults" response = Num (Int 0).
Proof.
  intros Hm Hj Hg Hp Hi Hl Ht.
  rewrite (pubmed_handler_search _ _ _ _ _ _ _ _ Hm Hj Hg Hp Hi Hl Ht).
  repeat split; reflexivity.
Qed.

Lemma empty_answer_lacks_cache_control_witness :
  let response :=
    snd (Pubmed.handler None
           (Sample.pubmed_upstream (Sample.esearch 0 (Str "")) Undefined)
           (Sample.post (Sample.pubmed_request None None None))) in
  is_json_response response = true
  /\ header "Content-Type" response = Some "application/json"
  /\ header "Cache-Control" response = None
  /\ body_prop "papers" response = Arr []
  /\ body_prop "totalResults" response = Num (Int 0).
Proof.
  apply (empty_answer_lacks_cache_control None _ _
           (Sample.pubmed_request None None None)
           (Pubmed.searchUrl (Pubmed.API_KEY None) (Sample.pubmed_request None None None))
           (Sample.esearch 0 (Str "")) Undefined Undefined); reflexivity.
Defined.

(** ** Query translation *)

Lemma string_app_assoc (a b c : string) : (a ++ b) ++ c = a ++ b ++ c.
Proof. induction a as [|x a IH]; simpl; [reflexivity | f_equal; exact IH]. Qed.

Lemma given_nonzero (year : option Z) :
  given year = match Spec.nonzero year with Some _ => true | None => false end.
Proof. destruct year as [[| |]|]; reflexivity. Qed.

Lemma year_text_nonzero (year : option Z) :
  given year = true ->
  exists y, Spec.nonzero year = Some y /\ year_text year = string_of_Z y.
Proof.
  destruct year as [[|y|y]|]; simpl; intros H; try discriminate H; eauto.
Qed.

Lemma fieldQuery_prefix (f : option Arxiv.SearchField) (q : string) :
  Arxiv.fieldQuery (Arxiv.default Arxiv.all f) q = Spec.prefix f ++ q.
Proof. destruct f as [[| | |]|]; reflexivity. Qed.

(** C2, as the code has it.  The arXiv translator builds what the
    specification describes from the field, the query text and the year
    bounds, a bound of 0 counting as no bound. *)
Theorem arxiv_query_translation (r : Arxiv.ArxivRequestData) :
  Arxiv.searchQuery r = Spec.arxiv_query_spec (Spec.arxiv_effective r).
Proof.
  unfold Arxiv.searchQuery, Spec.arxiv_query_spec, Arxiv.dateQuery. simpl.
  rewrite fieldQuery_prefix.
  destruct (given (Arxiv.yearStart r)) eqn:Hs, (given (Arxiv.yearEnd r)) eqn:He.
  - destruct (year_text_nonzero _ Hs) as (ys & -> & ->).
    destruct (year_text_nonzero _ He) as (ye & -> & ->).
    simpl. repeat (rewrite string_app_assoc; simpl). reflexivity.
  - destruct (year_text_nonzero _ Hs) as (ys & -> & ->).
    rewrite given_nonzero in He.
    destruct (Spec.nonzero (Arxiv.yearEnd r)); [discriminate He | reflexivity].
  - destruct (year_text_nonzero _ He) as (ye & -> & ->).
    rewrite given_nonzero in Hs.
    destruct (Spec.nonzero (Arxiv.yearStart r)); [discriminate Hs | reflexivity].
  - rewrite given_nonzero in Hs, He.
    destruct (Spec.nonzero (Arxiv.yearStart r)); [discriminate Hs|].
    destruct (Spec.nonzero (Arxiv.yearEnd r)); [discriminate He | reflexivity].
Qed.

(** The year bounds of the specification's examples. *)
Example arxiv_query_examples :
  Arxiv.searchQuery (Sample.arxiv_request None None) = "ti:quantum computing"
  /\ Arxiv.searchQuery (Sample.arxiv_request (Some 2020) None)
     = "(ti:quantum computing) AND (submittedDate:[20200101 TO 99991231])"
  /\ Arxiv.searchQuery (Sample.arxiv_request None (Some 2020))
     = "(ti:quantum computing) AND (submittedDate:[00000101 TO 20201231])"
  /\ Arxiv.searchQuery (Sample.arxiv_request (Some 2019) (Some 2021))
     = "(ti:quantum computing) AND (submittedDate:[20190101 TO 99991231] AND submittedDate:[00000101 TO 20211231])".
Proof. repeat split; reflexivity. Qed.

(** C2 as stated fails for a bound that is present and 0: the translator
    appends no date clause. *)
Lemma arxiv_year_zero_ignored :
  Arxiv.searchQuery (Sample.arxiv_request (Some 0) None) = "ti:quantum computing"
  /\ Spec.arxiv_query_spec (Sample.arxiv_request (Some 0) None)
     = "(ti:quantum computing) AND (submittedDate:[00101 TO 99991231])"
  /\ Arxiv.searchQuery (Sample.arxiv_request (Some 0) None)
     <> Spec.arxiv_query_spec (Sample.arxiv_request (Some 0) None).
Proof.
  split; [reflexivity|]. split; [reflexivity|]. discriminate.
Qed.

(** C3, as the code has it.  The PubMed translator passes the query on when
    no bound is given, wraps it with both bounds around the range separator
    when both are given, and with the single bound and no separator when
    only one is; a bound of 0 counts as no bound. *)
Theorem pubmed_query_translation (r : Pubmed.PubMedRequestData) :
  Pubmed.searchQuery r = Spec.pubmed_query_built r.
Proof.
  unfold Pubmed.searchQuery, Spec.pubmed_query_built, Pubmed.dateFilter.
  destruct (given (Pubmed.yearStart r)) eqn:Hs, (given (Pubmed.yearEnd r)) eqn:He.
  - destruct (year_text_nonzero _ Hs) as (ys & -> & ->).
    destruct (year_text_nonzero _ He) as (ye & -> & ->).
    simpl. repeat (rewrite string_app_assoc; simpl). reflexivity.
  - destruct (year_text_nonzero _ Hs) as (ys & -> & ->).
    rewrite given_nonzero in He.
    destruct (Spec.nonzero (Pubmed.yearEnd r)); [discriminate He | reflexivity].
  - destruct (year_text_nonzero _ He) as (ye & -> & ->).
    rewrite given_nonzero in Hs.
    destruct (Spec.nonzero (Pubmed.yearStart r)); [discriminate Hs | reflexivity].
  - rewrite given_nonzero in Hs, He.
    destruct (Spec.nonzero (Pubmed.yearStart r)); [discriminate Hs|].
    destruct (Spec.nonzero (Pubmed.yearEnd r)); [discriminate He | reflexivity].
Qed.

Example pubmed_query_examples :
  Pubmed.searchQuery (Sample.pubmed_request None None None) = "cancer"
  /\ Pubmed.searchQuery (Sample.pubmed_request None (Some 2019) (Some 2021))
     = "(cancer) AND (2019[PDAT] : 2021[PDAT])"
  /\ Pubmed.searchQuery (Sample.pubmed_request None None (Some 2021))
     = "(cancer) AND (2021[PDAT])".
Proof. repeat split; reflexivity. Qed.

(** C3 as stated fails for a lower bound alone: the clause is the bound by
    itself, with no range separator and so no empty right-hand side. *)
Lemma pubmed_one_sided_has_no_separator :
  Pubmed.searchQuery (Sample.pubmed_request None (Some 2020) None)
  = "(cancer) AND (2020[PDAT])"
  /\ Spec.pubmed_query_spec (Sample.pubmed_request None (Some 2020) None)
     = "(cancer) AND (2020[PDAT] : )"
  /\ Spec.contains " : " (Pubmed.searchQuery (Sample.pubmed_request None (Some 2020) None))
     = false.
Proof. repeat split; reflexivity. Qed.

(** ** The total count *)

Lemma JSON_tree_number (n : number) : JSON_tree (Num n) = Spec.json_number n.
Proof. destruct n; reflexivity. Qed.

(** The body the arXiv handler answers with, read back field by field. *)
Lemma arxiv_respond_body (maxResults : Z) (result body : value)
      (hs : list (string * string)) :
  Arxiv.respond maxResults result = Normal (JsonResponse body hs) ->
  exists feed entry papers counter counter0,
    get result "feed" = Normal feed
    /\ get feed "entry" = Normal entry
    /\ call_map "entries" (or_else entry (Arr [])) Arxiv.paper = Normal papers
    /\ get feed "opensearch:totalResults" = Normal counter
    /\ get_0 counter = Normal counter0
    /\ Spec.field "totalResults" body = Spec.json_number (parseInt counter0)
    /\ Spec.field "nextCursor" body
       = (if Z.of_nat (List.length papers) =? maxResults
          then Str (string_of_Z maxResults) else Undefined)
    /\ hs = Arxiv.headers.
Proof.
  unfold Arxiv.respond; intros H. unbind_all H. inversion H; subst; clear H.
  exists v, v0, v1, v2, v3. do 5 (split; [assumption|]).
  rewrite <- JSON_tree_number.
  destruct (Z.of_nat (List.length v1) =? maxResults); repeat split; reflexivity.
Qed.




(** ** A feed without entries *)



(** ** The boundary *)








(** ** The rate limiter *)

Section LimiterRuns.
Import Limiter.
Variable RATE_LIMIT : Z.

Lemma init_inv (now : Z) : Spec.limiter_inv RATE_LIMIT (init now).
Proof. repeat split. Qed.

(** One step of a run in which the entering call finds no call suspended. *)
Lemma step_inv (s s' : state) (ev : event) :
  Spec.limiter_inv RATE_LIMIT s ->
  (forall e, ev = Call e -> timers s = []) ->
  step RATE_LIMIT s ev = Some s' ->
  Spec.limiter_inv RATE_LIMIT s'.
Proof.
  intros (Hsp & Hlast & Htim) Hone Hstep.
  destruct ev as [d|e|k]; simpl in Hstep.
  - destruct (0 <=? d); inversion Hstep; subst. repeat split; assumption.
  - destruct (0 <=? e) eqn:He; inversion Hstep; subst; clear Hstep.
    apply Z.leb_le in He. specialize (Hone e eq_refl).
    unfold rateLimit.
    destruct (clock s - lastRequestTime s <? RATE_LIMIT) eqn:Hlt.
    + unfold Spec.limiter_inv; simpl. rewrite Hone; simpl.
      repeat split; try assumption. lia.
    + apply Z.ltb_ge in Hlt.
      unfold Spec.limiter_inv; simpl. rewrite Hone; simpl.
      split; [|split; trivial].
      destruct (grants s) as [|g rest]; simpl; [trivial|].
      split; [lia | exact Hsp].
  - destruct (timers s) as [|due [|due' rest]] eqn:Ht; try contradiction.
    + destruct k; discriminate Hstep.
    + destruct k as [|k]; simpl in Hstep; [|destruct k; discriminate Hstep].
      destruct (due <=? clock s) eqn:Hd; inversion Hstep; subst; clear Hstep.
      apply Z.leb_le in Hd.
      unfold Spec.limiter_inv; simpl. rewrite Ht; simpl.
      split; [|split; trivial].
      destruct (grants s) as [|g r]; simpl; [trivial|].
      split; [lia | exact Hsp].
Qed.

Lemma run_inv (evs : list event) (s s' : state) :
  Spec.limiter_inv RATE_LIMIT s ->
  run RATE_LIMIT s evs = Some s' ->
  one_at_a_time RATE_LIMIT s evs = true ->
  Spec.limiter_inv RATE_LIMIT s'.
Proof.
  revert s; induction evs as [|ev evs IH]; simpl; intros s Hinv Hrun Hone.
  - inversion Hrun; subst; exact Hinv.
  - destruct (step RATE_LIMIT s ev) as [s1|] eqn:Hstep; [|discriminate Hrun].
    apply (IH s1); [|exact Hrun|].
    + apply (step_inv s s1 ev Hinv); [|exact Hstep].
      intros e ->. destruct (timers s); [reflexivity | discriminate Hone].
    + destruct ev; try exact Hone.
      destruct (timers s); [exact Hone | discriminate Hone].
Qed.

(** In every run, [lastRequestTime] holds the time of the latest grant. *)
Lemma grant_recorded (evs : list event) (s s' : state) :
  match grants s with g :: _ => lastRequestTime s = g | [] => True end ->
  run RATE_LIMIT s evs = Some s' ->
  match grants s' with g :: _ => lastRequestTime s' = g | [] => True end.
Proof.
  revert s; induction evs as [|ev evs IH]; simpl; intros s H Hrun.
  - inversion Hrun; subst; exact H.
  - destruct (step RATE_LIMIT s ev) as [s1|] eqn:Hstep; [|discriminate Hrun].
    apply (IH s1); [|exact Hrun].
    destruct ev as [d|e|k]; simpl in Hstep.
    + destruct (0 <=? d); inversion Hstep; subst; exact H.
    + destruct (0 <=? e); inversion Hstep; subst. unfold rateLimit.
      destruct (clock s - lastRequestTime s <? RATE_LIMIT); [exact H | reflexivity].
    + destruct (nth_error (timers s) k) as [due|]; [|discriminate Hstep].
      destruct (due <=? clock s); inversion Hstep; subst. reflexivity.
Qed.

End LimiterRuns.

(** Every request of either handler directly follows a wait on the
    limiter. *)
Lemma handlers_gated :
  (forall up req, Spec.gated (fst (Arxiv.handler up req)) = true)
  /\ (forall env up req, Spec.gated (fst (Pubmed.handler env up req)) = true).
Proof.
  split.
  - intros up req. unfold Arxiv.handler, Arxiv.pipeline, fetch.
    destruct (negb (method req =? "POST")%string); [reflexivity|].
    destruct (json req) as [r|e]; simpl; [|reflexivity].
    destruct (axios_get up (Arxiv.url r)) as [data|e]; simpl; [|reflexivity].
    destruct (parser_parse up data) as [result|e]; simpl; [|reflexivity].
    destruct (Arxiv.respond _ result); reflexivity.
  - intros env up req. unfold Pubmed.handler, Pubmed.pipeline, fetch.
    destruct (negb (method req =? "POST")%string); [reflexivity|].
    destruct (json req) as [r|e]; simpl; [|reflexivity].
    destruct (axios_get up (Pubmed.searchUrl _ r)) as [data|e]; simpl; [|reflexivity].
    destruct (parser_parse up data) as [sr|e]; simpl; [|reflexivity].
    destruct (Pubmed.pmids_of sr) as [pmids|e]; simpl; [|reflexivity].
    destruct (get_opt pmids "length") as [len|e]; simpl; [|reflexivity].
    destruct (truthy len); simpl; [|reflexivity].
    destruct (call_join "pmids" pmids ",") as [ids|e]; simpl; [|reflexivity].
    destruct (axios_get up (Pubmed.fetchUrl _ ids)) as [fetched|e]; simpl; [|reflexivity].
    destruct (parser_parse up fetched) as [fr|e]; simpl; [|reflexivity].
    destruct (Pubmed.respond sr fr); reflexivity.
Qed.

(** C4, as the code has it.  As long as no call enters a source's limiter
    while another call is suspended in it, any two consecutive grants are at
    least the source's interval apart: 3000 ms for arXiv, 100 ms for PubMed.
    Each grant stores its time in [lastRequestTime].  Every request of
    either handler, the ID search and the detail fetch of PubMed included,
    directly follows a wait on the limiter. *)
Theorem rate_limit_spacing :
  (forall now evs s',
      Limiter.run Arxiv.RATE_LIMIT (Limiter.init now) evs = Some s' ->
      Limiter.one_at_a_time Arxiv.RATE_LIMIT (Limiter.init now) evs = true ->
      Limiter.spaced 3000 (Limiter.grants s')
      /\ forall g rest, Limiter.grants s' = g :: rest -> Limiter.lastRequestTime s' = g)
  /\ (forall now evs s',
         Limiter.run Pubmed.RATE_LIMIT (Limiter.init now) evs = Some s' ->
         Limiter.one_at_a_time Pubmed.RATE_LIMIT (Limiter.init now) evs = true ->
         Limiter.spaced 100 (Limiter.grants s')
         /\ forall g rest, Limiter.grants s' = g :: rest -> Limiter.lastRequestTime s' = g)
  /\ (forall up req, Spec.gated (fst (Arxiv.handler up req)) = true)
  /\ (forall env up req, Spec.gated (fst (Pubmed.handler env up req)) = true).
Proof.
  split; [|split; [|exact handlers_gated]].
  - intros now evs s' Hrun Hone.
    destruct (run_inv _ evs _ _ (init_inv _ now) Hrun Hone) as (Hsp & Hlast & _).
    split; [exact Hsp|]. intros g rest Hg. rewrite Hg in Hlast. exact Hlast.
  - intros now evs s' Hrun Hone.
    destruct (run_inv _ evs _ _ (init_inv _ now) Hrun Hone) as (Hsp & Hlast & _).
    split; [exact Hsp|]. intros g rest Hg. rewrite Hg in Hlast. exact Hlast.
Qed.

Lemma rate_limit_spacing_witness :
  Limiter.spaced 3000 [1700000006100; 1700000003000; 1700000000000]
  /\ Limiter.spaced 100 [1700000000100; 1700000000000].
Proof.
  split.
  - apply (proj1 rate_limit_spacing 1700000000000
             [Limiter.Call 0; Limiter.Tick 500; Limiter.Call 0; Limiter.Tick 2500;
              Limiter.Resume 0; Limiter.Tick 3100; Limiter.Call 0]
             {| Limiter.clock := 1700000006100;
                Limiter.lastRequestTime := 1700000006100;
                Limiter.timers := [];
                Limiter.grants := [1700000006100; 1700000003000; 1700000000000] |});
      reflexivity.
  - apply (proj1 (proj2 rate_limit_spacing) 1700000000000
             [Limiter.Call 0; Limiter.Tick 20; Limiter.Call 0; Limiter.Tick 80;
              Limiter.Resume 0]
             {| Limiter.clock := 1700000000100;
                Limiter.lastRequestTime := 1700000000100;
                Limiter.timers := [];
                Limiter.grants := [1700000000100; 1700000000000] |});
      reflexivity.
Defined.

(** C4 as stated fails when calls overlap: two calls that enter while the
    last grant is recent read the same [lastRequestTime], sleep until the
    same instant and are granted together. *)
Lemma overlapping_calls_granted_together :
  exists s',
    Limiter.run Arxiv.RATE_LIMIT (Limiter.init 1700000000000)
      [Limiter.Call 0; Limiter.Tick 500; Limiter.Call 0; Limiter.Tick 100;
       Limiter.Call 0; Limiter.Tick 2400; Limiter.Resume 0; Limiter.Resume 0]
    = Some s'
    /\ Limiter.grants s' = [1700000003000; 1700000003000; 1700000000000]
    /\ ~ Limiter.spaced 3000 (Limiter.grants s').
Proof.
  eexists. split; [reflexivity|]. split; [reflexivity|].
  simpl. intros [H _]. lia.
Qed.

(** * Further properties *)

(** ** The limiter in arbitrary runs *)

Section LimiterClock.
Import Limiter.
Variable RATE_LIMIT : Z.

Lemma In_remove_nth {A} (k : nat) (l : list A) (x : A) :
  In x (remove_nth k l) -> In x l.
Proof.
  revert k; induction l as [|y l IH]; intros k H; [destruct k; exact H|].
  destruct k as [|k]; simpl in H.
  - right; exact H.
  - destruct H as [H|H]; [left; exact H | right; exact (IH k H)].
Qed.

Lemma init_clock_inv (now : Z) :
  0 <= now -> Spec.limiter_clock_inv RATE_LIMIT (init now).
Proof. intros H. repeat split; simpl; auto. Qed.

Lemma grant_clock_inv (s : state) :
  Spec.limiter_clock_inv RATE_LIMIT s ->
  Spec.limiter_clock_inv RATE_LIMIT (grant s).
Proof.
  intros (Hsp & Hhead & Hlast & Hdue). unfold Spec.limiter_clock_inv; simpl.
  repeat split; try lia; try assumption.
  destruct (grants s) as [|g r]; simpl; [trivial|]. split; [lia | exact Hsp].
Qed.

Lemma step_clock_inv (s s' : state) (ev : event) :
  Spec.limiter_clock_inv RATE_LIMIT s ->
  step RATE_LIMIT s ev = Some s' ->
  Spec.limiter_clock_inv RATE_LIMIT s'.
Proof.
  intros Hinv Hstep.
  assert (Hadv : forall d, 0 <= d -> Spec.limiter_clock_inv RATE_LIMIT (advance d s)).
  { intros d Hd. destruct Hinv as (Hsp & Hhead & Hlast & Hdue).
    unfold Spec.limiter_clock_inv; simpl. repeat split; try assumption; try lia.
    - destruct (grants s); [trivial | lia].
    - eapply Forall_impl; [|exact Hdue]. simpl; intros; lia. }
  destruct ev as [d|e|k]; simpl in Hstep.
  - destruct (0 <=? d) eqn:Hd; inversion Hstep; subst.
    apply Hadv. apply Z.leb_le; exact Hd.
  - destruct (0 <=? e) eqn:He; inversion Hstep; subst; clear Hstep.
    apply Z.leb_le in He. unfold rateLimit.
    destruct (clock s - lastRequestTime s <? RATE_LIMIT) eqn:Hlt.
    + destruct (Hadv e He) as (Hsp & Hhead & Hlast & Hdue).
      unfold Spec.limiter_clock_inv; simpl. repeat split; try assumption.
      apply Forall_app; split; [exact Hdue|].
      constructor; [|constructor]. simpl.
      destruct Hinv as (_ & _ & Hl & _). lia.
    + apply grant_clock_inv. apply Hadv; exact He.
  - destruct (nth_error (timers s) k) as [due|]; [|discriminate Hstep].
    destruct (due <=? clock s); inversion Hstep; subst; clear Hstep.
    apply grant_clock_inv.
    destruct Hinv as (Hsp & Hhead & Hlast & Hdue).
    unfold Spec.limiter_clock_inv; simpl. repeat split; try assumption.
    apply Forall_forall. intros x Hx. apply In_remove_nth in Hx.
    rewrite Forall_forall in Hdue. exact (Hdue x Hx).
Qed.

Lemma run_clock_inv (evs : list event) (s s' : state) :
  Spec.limiter_clock_inv RATE_LIMIT s ->
  run RATE_LIMIT s evs = Some s' ->
  Spec.limiter_clock_inv RATE_LIMIT s'.
Proof.
  revert s; induction evs as [|ev evs IH]; simpl; intros s Hinv Hrun.
  - inversion Hrun; subst; exact Hinv.
  - destruct (step RATE_LIMIT s ev) as [s1|] eqn:Hstep; [|discriminate Hrun].
    exact (IH s1 (step_clock_inv _ _ _ Hinv Hstep) Hrun).
Qed.

End LimiterClock.

(** X1.  In every run of the limiter, overlapping calls included, the
    grants come in time order, [lastRequestTime] never runs ahead of the
    clock, and every suspended call is due no later than one interval from
    now. *)
Theorem limiter_keeps_time_order (RATE_LIMIT now : Z) (evs : list Limiter.event)
        (s' : Limiter.state) :
  0 <= now ->
  Limiter.run RATE_LIMIT (Limiter.init now) evs = Some s' ->
  Limiter.spaced 0 (Limiter.grants s')
  /\ Limiter.lastRequestTime s' <= Limiter.clock s'
  /\ Forall (fun due => due <= Limiter.clock s' + RATE_LIMIT) (Limiter.timers s').
Proof.
  intros Hnow Hrun.
  destruct (run_clock_inv RATE_LIMIT evs _ _ (init_clock_inv RATE_LIMIT now Hnow) Hrun)
    as (Hsp & _ & Hlast & Hdue).
  auto.
Qed.

Lemma limiter_keeps_time_order_witness :
  Limiter.spaced 0 [1700000003000; 1700000003000; 1700000000000]
  /\ 1700000003000 <= 1700000003000
  /\ Forall (fun due => due <= 1700000003000 + 3000) [].
Proof.
  apply (limiter_keeps_time_order 3000 1700000000000
           [Limiter.Call 0; Limiter.Tick 500; Limiter.Call 0; Limiter.Tick 100;
            Limiter.Call 0; Limiter.Tick 2400; Limiter.Resume 0; Limiter.Resume 0]
           {| Limiter.clock := 1700000003000;
              Limiter.lastRequestTime := 1700000003000;
              Limiter.timers := [];
              Limiter.grants := [1700000003000; 1700000003000; 1700000000000] |});
    [lia | reflexivity].
Defined.

(** X2.  A caller is held by the limiter for at most one interval: in any
    state a run can reach, a call that enters is either granted at once or
    suspended until a time that is later than its clock reading by no more
    than [RATE_LIMIT], and once that much time has passed its timer can
    fire and the call is granted. *)
Theorem limiter_holds_at_most_one_interval (RATE_LIMIT now e : Z)
        (evs : list Limiter.event) (s : Limiter.state) :
  0 <= now -> 0 <= RATE_LIMIT -> 0 <= e ->
  Limiter.run RATE_LIMIT (Limiter.init now) evs = Some s ->
  let s1 := Limiter.rateLimit RATE_LIMIT e s in
  Limiter.step RATE_LIMIT s (Limiter.Call e) = Some s1
  /\ ((Limiter.grants s1 = (Limiter.clock s + e) :: Limiter.grants s
       /\ Limiter.timers s1 = Limiter.timers s)
      \/
      (exists due s2,
          Limiter.timers s1 = (Limiter.timers s ++ [due])%list
          /\ Limiter.grants s1 = Limiter.grants s
          /\ Limiter.clock s < due <= Limiter.clock s + RATE_LIMIT
          /\ Limiter.run RATE_LIMIT s1
               [Limiter.Tick RATE_LIMIT; Limiter.Resume (List.length (Limiter.timers s))]
             = Some s2
          /\ Limiter.grants s2 = (Limiter.clock s + e + RATE_LIMIT) :: Limiter.grants s)).
Proof.
  intros Hnow HRL He Hrun s1.
  destruct (run_clock_inv RATE_LIMIT evs _ _ (init_clock_inv RATE_LIMIT now Hnow) Hrun)
    as (_ & _ & Hlast & _).
  split.
  - simpl. replace (0 <=? e) with true by (symmetry; apply Z.leb_le; exact He).
    reflexivity.
  - unfold s1, Limiter.rateLimit.
    destruct (Limiter.clock s - Limiter.lastRequestTime s <? RATE_LIMIT) eqn:Hlt.
    + right. apply Z.ltb_lt in Hlt.
      eexists. eexists. split; [reflexivity|]. split; [reflexivity|].
      split; [lia|].
      simpl. replace (0 <=? RATE_LIMIT) with true by (symmetry; apply Z.leb_le; exact HRL).
      simpl. rewrite nth_error_app2 by lia. rewrite Nat.sub_diag. simpl.
      match goal with
      | |- context [?a <=? ?b] =>
          replace (a <=? b) with true by (symmetry; apply Z.leb_le; lia)
      end.
      split; reflexivity.
    + left. split; reflexivity.
Qed.

Lemma limiter_holds_at_most_one_interval_witness :
  let s := {| Limiter.clock := 1700000000500;
              Limiter.lastRequestTime := 1700000000000;
              Limiter.timers := [];
              Limiter.grants := [1700000000000] |} in
  let s1 := Limiter.rateLimit 3000 0 s in
  Limiter.step 3000 s (Limiter.Call 0) = Some s1
  /\ ((Limiter.grants s1 = (Limiter.clock s + 0) :: Limiter.grants s
       /\ Limiter.timers s1 = Limiter.timers s)
      \/
      (exists due s2,
          Limiter.timers s1 = (Limiter.timers s ++ [due])%list
          /\ Limiter.grants s1 = Limiter.grants s
          /\ Limiter.clock s < due <= Limiter.clock s + 3000
          /\ Limiter.run 3000 s1
               [Limiter.Tick 3000; Limiter.Resume (List.length (Limiter.timers s))]
             = Some s2
          /\ Limiter.grants s2 = (Limiter.clock s + 0 + 3000) :: Limiter.grants s)).
Proof.
  apply (limiter_holds_at_most_one_interval 3000 1700000000000 0
           [Limiter.Call 0; Limiter.Tick 500]); try lia. reflexivity.
Defined.

(** ** Mapping over a sequence *)

Lemma mapM_Forall2 {A B} (f : A -> completion B) (l : list A) (r : list B) :
  mapM f l = Normal r -> Forall2 (fun x y => f x = Normal y) l r.
Proof.
  revert r; induction l as [|x l IH]; simpl; intros r H.
  - inversion H; constructor.
  - unbind H. unbind H. inversion H; subst. constructor; auto.
Qed.

(** [mapM] stops at the first element that throws. *)
Lemma mapM_Throw {A B} (f : A -> completion B) (l : list A) (bad : A) (e : exn) :
  In bad l -> f bad = Throw e ->
  exists pre x post e',
    l = (pre ++ x :: post)%list
    /\ Forall (fun y => exists b, f y = Normal b) pre
    /\ f x = Throw e'
    /\ mapM f l = Throw e'.
Proof.
  induction l as [|y l IH]; intros Hin Hbad; [contradiction|].
  destruct (f y) as [b|e'] eqn:Hy.
  - destruct Hin as [->|Hin]; [congruence|].
    destruct (IH Hin Hbad) as (pre & x & post & e' & Hl & Hpre & Hx & Hm).
    exists (y :: pre), x, post, e'. subst l. repeat split; auto.
    + constructor; eauto.
    + simpl. rewrite Hy. simpl. rewrite Hm. reflexivity.
  - exists [], y, l, e'. repeat split; auto. simpl. rewrite Hy. reflexivity.
Qed.

Lemma findM_Normal (p : value -> completion bool) (l : list value) (x : value) :
  findM p l = Normal x ->
  (x = Undefined /\ Forall (fun y => p y = Normal false) l)
  \/ exists pre post,
      l = (pre ++ x :: post)%list
      /\ Forall (fun y => p y = Normal false) pre
      /\ p x = Normal true.
Proof.
  induction l as [|y l IH]; simpl; intros H.
  - inversion H; left; split; [reflexivity | constructor].
  - unbind H. destruct v.
    + inversion H; subst. right. exists [], l. repeat split; auto.
    + destruct (IH H) as [(Hx & Hall)|(pre & post & Hl & Hpre & Hx)].
      * left. split; [exact Hx | constructor; assumption].
      * right. exists (y :: pre), post. subst l. repeat split; auto.
Qed.

Lemma strict_eq_str_true (v : value) (lit : string) :
  strict_eq_str v lit = true -> v = Str lit.
Proof.
  destruct v; simpl; try discriminate. intros H. apply String.eqb_eq in H. congruence.
Qed.

Lemma attribute_test (x : value) (k lit : string) (b : bool) :
  (let* t := get x k in Normal (strict_eq_str t lit)) = Normal b ->
  exists t, get x k = Normal t
            /\ (if b then t = Str lit else t <> Str lit).
Proof.
  intros H. apply bind_Normal in H. destruct H as (t & Ht & Hb).
  exists t. split; [exact Ht|]. inversion Hb as [Heq]. destruct b.
  - rewrite Heq. apply strict_eq_str_true. exact Heq.
  - rewrite Heq. intros ->. simpl in Heq. rewrite String.eqb_refl in Heq. discriminate Heq.
Qed.

(** ** The arXiv normalizer *)

(** X3.  The PDF address of an arXiv paper is the [href] of the first link
    of the entry whose [title] is [pdf]; the links before it have another
    title or none. *)
Theorem pdf_url_is_first_pdf_link (entry p : value) :
  Arxiv.paper entry = Normal p ->
  exists pre pdf post,
    get entry "link" = Normal (Arr (pre ++ pdf :: post)%list)
    /\ Forall (fun link => exists t, get link "title" = Normal t /\ t <> Str "pdf") pre
    /\ get pdf "title" = Normal (Str "pdf")
    /\ get pdf "href" = Normal (Spec.field "pdfUrl" p).
Proof.
  unfold Arxiv.paper; intros H. unbind_all H. inversion H; subst; clear H. simpl.
  destruct v6; simpl in E7; try discriminate E7.
  destruct (findM_Normal _ _ _ E7) as [(-> & _)|(pre & post & Hl & Hpre & Hx)];
    [discriminate E8|].
  exists pre, v7, post. subst elems. split; [exact E6|].
  split; [|split; [|exact E8]].
  - eapply Forall_impl; [|exact Hpre]. simpl. intros link Hlink.
    exact (attribute_test _ _ _ _ Hlink).
  - destruct (attribute_test _ _ _ _ Hx) as (t & Ht & ->). exact Ht.
Qed.

Lemma pdf_url_is_first_pdf_link_witness :
  exists pre pdf post,
    get (Sample.entry Sample.one_author) "link" = Normal (Arr (pre ++ pdf :: post)%list)
    /\ Forall (fun link => exists t, get link "title" = Normal t /\ t <> Str "pdf") pre
    /\ get pdf "title" = Normal (Str "pdf")
    /\ get pdf "href" = Normal (Str "http://arxiv.org/pdf/2001.00001v1").
Proof.
  exact (pdf_url_is_first_pdf_link (Sample.entry Sample.one_author) _ eq_refl).
Defined.

(** X4.  An entry whose links are not an array, or whose link array has no
    element titled [pdf], never yields a paper: the mapper throws. *)
Theorem entry_without_pdf_link_throws (entry link : value) :
  get entry "link" = Normal link ->
  (isArray link = false
   \/ exists links,
       link = Arr links
       /\ Forall (fun l => exists t, get l "title" = Normal t /\ t <> Str "pdf") links) ->
  exists e, Arxiv.paper entry = Throw e.
Proof.
  intros Hlink Hcase. unfold Arxiv.paper.
  repeat match goal with
         | |- exists e, bind ?c _ = Throw e =>
             lazymatch c with
             | get entry "link" => fail
             | _ => destruct c; simpl; [|eexists; reflexivity]
             end
         end.
  rewrite Hlink; simpl.
  destruct Hcase as [Hna|(links & -> & Hall)].
  - destruct link; simpl in *; try discriminate Hna; eexists; reflexivity.
  - simpl.
    assert (Hfind : findM (fun link => let* t := get link "title" in
                                       Normal (strict_eq_str t "pdf")) links
                    = Normal Undefined).
    { clear - Hall. induction Hall as [|l links (t & Ht & Hne) _ IH]; simpl; [reflexivity|].
      rewrite Ht; simpl.
      destruct (strict_eq_str t "pdf") eqn:Heq; [|exact IH].
      apply strict_eq_str_true in Heq. contradiction. }
    rewrite Hfind. simpl. eexists; reflexivity.
Qed.

Lemma entry_without_pdf_link_throws_witness :
  exists e,
    Arxiv.paper
      (Obj [("author", Sample.one_author);
            ("category", Obj [("term", Str "quant-ph")]);
            ("link", Arr [Obj [("href", Str "http://arxiv.org/abs/2001.00001v1");
                               ("rel", Str "alternate")]])])
    = Throw e.
Proof.
  apply (entry_without_pdf_link_throws _
           (Arr [Obj [("href", Str "http://arxiv.org/abs/2001.00001v1");
                      ("rel", Str "alternate")]]));
    [reflexivity|].
  right. eexists. split; [reflexivity|].
  constructor; [|constructor].
  exists Undefined. split; [reflexivity | discriminate].
Defined.

(** X5.  The categories of an arXiv paper are the [term]s of the entry's
    category elements, whether the entry has one category (a bare object) or
    several (an array), and the authors the [name]s of its author elements
    in the same way. *)
Theorem authors_and_categories_one_or_many (entry p author category : value) :
  Arxiv.paper entry = Normal p ->
  get entry "author" = Normal author ->
  get entry "category" = Normal category ->
  exists names terms,
    Spec.field "authors" p = Arr names
    /\ Spec.field "categories" p = Arr terms
    /\ match author with
       | Arr l => Forall2 (fun a n => get a "name" = Normal n) l names
       | _ => exists name, get author "name" = Normal name /\ names = [name]
       end
    /\ match category with
       | Arr l => Forall2 (fun c t => get c "term" = Normal t) l terms
       | _ => exists term, get category "term" = Normal term /\ terms = [term]
       end.
Proof.
  intros H Ha Hc.
  destruct (arxiv_paper_authors entry p author H Ha) as (names & Hn & Hnames).
  unfold Arxiv.paper in H. rewrite Ha in H; simpl in H.
  unbind H. rewrite Hc in H; simpl in H. unbind H.
  exists names, v0. split; [exact Hn|]. split; [|split].
  - unbind_all H. inversion H; reflexivity.
  - destruct author; try exact Hnames. apply mapM_Forall2; exact Hnames.
  - clear H. destruct category; simpl in E0; try discriminate E0.
    all: try (inversion E0; subst; eexists; split; reflexivity).
    apply mapM_Forall2; exact E0.
Qed.

Lemma authors_and_categories_one_or_many_witness :
  exists names terms,
    Spec.field "authors"
      (Obj [("authors", Arr [Str "Ada"; Str "Alan"]);
            ("categories", Arr [Str "quant-ph"])]) = Arr names
    /\ Spec.field "categories"
         (Obj [("authors", Arr [Str "Ada"; Str "Alan"]);
               ("categories", Arr [Str "quant-ph"])]) = Arr terms
    /\ Forall2 (fun a n => get a "name" = Normal n)
         [Obj [("name", Str "Ada")]; Obj [("name", Str "Alan")]] names
    /\ exists term,
        get (Obj [("term", Str "quant-ph")]) "term" = Normal term /\ terms = [term].
Proof.
  exact (authors_and_categories_one_or_many (Sample.entry Sample.two_authors) _
           Sample.two_authors (Obj [("term", Str "quant-ph")])
           eq_refl eq_refl eq_refl).
Defined.



(** ** What reaches the JSON document *)

Lemma has_prop_JSON_tree (k : string) (ps : list (string * value)) :
  has_prop k (JSON_tree (Obj ps))
  = existsb (fun kv => (fst kv =? k)%string && negb (Spec.is_undefined (snd kv))) ps.
Proof.
  simpl. induction ps as [|[k' v] ps IH]; [reflexivity|].
  destruct v; simpl; rewrite IH; try reflexivity.
  all: rewrite ?andb_false_r, ?andb_true_r; reflexivity.
Qed.

(** X7.  In the JSON document of an arXiv paper, [authors], [categories],
    [summary] and [title] are always present, while [doi], [journalRef],
    [id] and the two dates are present exactly when the entry has the
    element they are read from: an absent element leaves no key behind. *)
Theorem arxiv_paper_json_keys (entry p doi journalRef id published updated : value) :
  Arxiv.paper entry = Normal p ->
  get entry "arxiv:doi" = Normal doi ->
  get entry "arxiv:journal_ref" = Normal journalRef ->
  get entry "id" = Normal id ->
  get entry "published" = Normal published ->
  get entry "updated" = Normal updated ->
  has_prop "authors" (JSON_tree p) = true
  /\ has_prop "categories" (JSON_tree p) = true
  /\ has_prop "summary" (JSON_tree p) = true
  /\ has_prop "title" (JSON_tree p) = true
  /\ has_prop "pdfUrl" (JSON_tree p) = negb (Spec.is_undefined (Spec.field "pdfUrl" p))
  /\ has_prop "doi" (JSON_tree p) = negb (Spec.is_undefined doi)
  /\ has_prop "journalRef" (JSON_tree p) = negb (Spec.is_undefined journalRef)
  /\ has_prop "id" (JSON_tree p) = negb (Spec.is_undefined id)
  /\ has_prop "publishedDate" (JSON_tree p) = negb (Spec.is_undefined published)
  /\ has_prop "updatedDate" (JSON_tree p) = negb (Spec.is_undefined updated).
Proof.
  unfold Arxiv.paper; intros H Hd Hj Hi Hp Hu.
  unbind H. unbind H. unbind H. unbind H.
  rewrite Hd in H; simpl in H. rewrite Hi in H; simpl in H. rewrite Hj in H; simpl in H.
  unbind H. unbind H. unbind H.
  rewrite Hp in H; simpl in H.
  unbind H. unbind H. unbind H. unbind H.
  rewrite Hu in H; simpl in H.
  repeat match goal with
         | T : call_trim _ _ = Normal _ |- _ =>
             apply call_trim_Normal in T; destruct T as (? & ? & ?); subst
         end.
  inversion H; subst; clear H.
  rewrite !has_prop_JSON_tree. simpl.
  repeat split; rewrite ?orb_false_r; reflexivity.
Qed.

Lemma arxiv_paper_json_keys_witness :
  let p := match Arxiv.paper (Sample.entry Sample.one_author) with
           | Normal p => p
           | Throw _ => Undefined
           end in
  has_prop "title" (JSON_tree p) = true
  /\ has_prop "doi" (JSON_tree p) = false
  /\ has_prop "journalRef" (JSON_tree p) = false
  /\ has_prop "id" (JSON_tree p) = true.
Proof.
  destruct (arxiv_paper_json_keys (Sample.entry Sample.one_author) _
              Undefined Undefined (Str "http://arxiv.org/abs/2001.00001v1")
              (Str "2020-01-01T00:00:00Z") (Str "2020-01-02T00:00:00Z")
              eq_refl eq_refl eq_refl eq_refl eq_refl eq_refl)
    as (_ & _ & _ & Ht & _ & Hd & Hj & Hi & _).
  repeat split; assumption.
Defined.

(** ** The arXiv envelope *)

Lemma arxiv_success_parsed (up : Upstream) (req : Request Arxiv.ArxivRequestData)
      (t : list effect) (body : value) (hs : list (string * string)) :
  Arxiv.handler up req = (t, JsonResponse body hs) ->
  exists r result,
    Spec.arxiv_parsed up req r result
    /\ Arxiv.respond (Arxiv.default 10 (Arxiv.maxResults r)) result
       = Normal (JsonResponse body hs).
Proof.
  intros H.
  destruct (arxiv_success _ _ _ _ _ H) as (_ & r & data & result & Hj & Hg & Hp & Hr & _).
  exists r, result. split; [|exact Hr]. split; [exact Hj|]. exists data; auto.
Qed.

(** X8.  The arXiv answer carries [nextCursor] exactly when the number of
    papers equals the requested [maxResults] (10 when the request names
    none), and the cursor is then that number as text; otherwise the key is
    absent from the document. *)
Theorem next_cursor_iff_page_full (up : Upstream) (req : Request Arxiv.ArxivRequestData)
        (t : list effect) (body : value) (hs : list (string * string)) :
  Arxiv.handler up req = (t, JsonResponse body hs) ->
  exists r papers,
    json req = Normal r
    /\ Spec.field "papers" body = Arr papers
    /\ if Z.of_nat (List.length papers) =? Arxiv.default 10 (Arxiv.maxResults r)
       then Spec.field "nextCursor" body
            = Str (string_of_Z (Arxiv.default 10 (Arxiv.maxResults r)))
       else has_prop "nextCursor" body = false.
Proof.
  intros H.
  destruct (arxiv_success_parsed _ _ _ _ _ H) as (r & result & (Hj & _) & Hr).
  unfold Arxiv.respond in Hr. unbind_all Hr. inversion Hr; subst; clear Hr.
  exists r. eexists. split; [exact Hj|].
  destruct (Z.of_nat (List.length v1) =? Arxiv.default 10 (Arxiv.maxResults r)) eqn:Hlen.
  - split; [reflexivity|]. rewrite length_map, Hlen. reflexivity.
  - split; [reflexivity|]. rewrite length_map, Hlen. reflexivity.
Qed.

Lemma next_cursor_iff_page_full_witness :
  let response :=
    snd (Arxiv.handler (Sample.serving (fun _ => Normal Sample.feed_two_entries))
           (Sample.post (Sample.arxiv_request None None))) in
  exists r papers,
    json (Sample.post (Sample.arxiv_request None None)) = Normal r
    /\ body_prop "papers" response = Arr papers
    /\ if Z.of_nat (List.length papers) =? Arxiv.default 10 (Arxiv.maxResults r)
       then body_prop "nextCursor" response
            = Str (string_of_Z (Arxiv.default 10 (Arxiv.maxResults r)))
       else has_prop "nextCursor"
              (JSON_tree (Obj [("nextCursor", Undefined)])) = false.
Proof.
  destruct (next_cursor_iff_page_full
              (Sample.serving (fun _ => Normal Sample.feed_two_entries))
              (Sample.post (Sample.arxiv_request None None)) _ _ _ eq_refl)
    as (r & papers & Hj & Hp & Hc).
  exists r, papers. split; [exact Hj|]. split; [exact Hp|].
  destruct (Z.of_nat (List.length papers) =? Arxiv.default 10 (Arxiv.maxResults r));
    [exact Hc | reflexivity].
Defined.

(** X9.  The papers of an arXiv answer are the entries of the feed, one
    paper per entry and in the feed's order. *)
Theorem papers_follow_entries (up : Upstream) (req : Request Arxiv.ArxivRequestData)
        (t : list effect) (body : value) (hs : list (string * string)) :
  Arxiv.handler up req = (t, JsonResponse body hs) ->
  exists r result entry entries papers,
    Spec.arxiv_parsed up req r result
    /\ Spec.get_path result ["feed"; "entry"] = Normal entry
    /\ or_else entry (Arr []) = Arr entries
    /\ Forall2 (fun e p => Arxiv.paper e = Normal p) entries papers
    /\ Spec.field "papers" body = JSON_tree (Arr papers).
Proof.
  intros H.
  destruct (arxiv_success_parsed _ _ _ _ _ H) as (r & result & Hparsed & Hr).
  unfold Arxiv.respond in Hr. unbind_all Hr. inversion Hr; subst; clear Hr.
  destruct (or_else v0 (Arr [])) as [| | | | |entries|] eqn:Hor; simpl in E1;
    try discriminate E1.
  exists r, result, v0, entries, v1. split; [exact Hparsed|].
  split; [simpl; rewrite E; simpl; rewrite E0; reflexivity|].
  split; [exact Hor|]. split; [apply mapM_Forall2; exact E1|].
  destruct (Z.of_nat (List.length v1) =? _); reflexivity.
Qed.

Lemma papers_follow_entries_witness :
  let up := Sample.serving (fun _ => Normal Sample.feed_two_entries) in
  let req := Sample.post (Sample.arxiv_request None None) in
  exists r result entry entries papers,
    Spec.arxiv_parsed up req r result
    /\ Spec.get_path result ["feed"; "entry"] = Normal entry
    /\ or_else entry (Arr []) = Arr entries
    /\ Forall2 (fun e p => Arxiv.paper e = Normal p) entries papers
    /\ body_prop "papers" (snd (Arxiv.handler up req)) = JSON_tree (Arr papers).
Proof.
  exact (papers_follow_entries
           (Sample.serving (fun _ => Normal Sample.feed_two_entries))
           (Sample.post (Sample.arxiv_request None None)) _ _ _ eq_refl).
Defined.

(** X10.  No partial list: when one entry of the feed cannot be mapped, the
    arXiv handler answers with the internal-server-error envelope for the
    first such entry, whatever the other entries hold. *)
Theorem bad_entry_discards_answer (up : Upstream) (req : Request Arxiv.ArxivRequestData)
        (r : Arxiv.ArxivRequestData) (result : value) (entries : list value)
        (bad : value) (e : exn) :
  method req = "POST" ->
  Spec.arxiv_parsed up req r result ->
  Spec.get_path result ["feed"; "entry"] = Normal (Arr entries) ->
  In bad entries ->
  Arxiv.paper bad = Throw e ->
  exists pre x post e',
    entries = (pre ++ x :: post)%list
    /\ Forall (fun y => exists p, Arxiv.paper y = Normal p) pre
    /\ Arxiv.paper x = Throw e'
    /\ Arxiv.handler up req
       = ([AwaitSlot; HttpGet (Arxiv.url r)],
          Spec.internal_error "Unknown error occurred" e').
Proof.
  intros Hm (Hj & data & Hg & Hp) Hpath Hin Hbad.
  destruct (mapM_Throw Arxiv.paper entries bad e Hin Hbad)
    as (pre & x & post & e' & Hl & Hpre & Hx & Hmap).
  exists pre, x, post, e'. do 3 (split; [assumption|]).
  rewrite (arxiv_handler_run _ _ _ _ _ Hm Hj Hg Hp).
  unfold Arxiv.respond. simpl in Hpath.
  destruct (get result "feed") as [feed|]; simpl in Hpath; [|discriminate Hpath].
  simpl. destruct (get feed "entry") as [entry|]; simpl in Hpath; [|discriminate Hpath].
  inversion Hpath; subst entry. simpl. rewrite Hmap. reflexivity.
Qed.

Lemma bad_entry_discards_answer_witness :
  exists pre x post e',
    [Sample.entry Sample.one_author; Str "stray text"] = (pre ++ x :: post)%list
    /\ Forall (fun y => exists p, Arxiv.paper y = Normal p) pre
    /\ Arxiv.paper x = Throw e'
    /\ Arxiv.handler
         (Sample.serving
            (fun _ => Normal (Sample.feed
                                [("entry", Arr [Sample.entry Sample.one_author;
                                                Str "stray text"])])))
         (Sample.post (Sample.arxiv_request None None))
       = ([AwaitSlot; HttpGet (Arxiv.url (Sample.arxiv_request None None))],
          Spec.internal_error "Unknown error occurred" e').
Proof.
  apply (bad_entry_discards_answer _ _ _
           (Sample.feed [("entry", Arr [Sample.entry Sample.one_author;
                                        Str "stray text"])])
           _ (Str "stray text")
           (TypeError_read "undefined" "name")).
  - reflexivity.
  - split; [reflexivity|]. eexists. split; reflexivity.
  - reflexivity.
  - right; left; reflexivity.
  - reflexivity.
Defined.


(** ** The PubMed normalizer *)

Lemma or_else_text (x : value) :
  or_else x (Str "") = Str "" \/ (truthy x = true /\ or_else x (Str "") = x).
Proof.
  unfold or_else. destruct (truthy x); [right; auto | left; reflexivity].
Qed.

Lemma or_else_defined (x : value) : Spec.is_undefined (or_else x (Str "")) = false.
Proof. unfold or_else. destruct x as [| |[]|[[]|]|[]| |]; reflexivity. Qed.

Lemma get_opt_truthy (x : value) (k : string) (v : value) :
  get_opt x k = Normal v -> truthy v = true -> get x k = Normal v.
Proof.
  destruct x; simpl; intros H Ht; try exact H; inversion H; subst; discriminate Ht.
Qed.

(** The [doi] of a PubMed paper is never [undefined]. *)
Lemma pubmed_doi_defined (article p : value) :
  Pubmed.paper article = Normal p ->
  Spec.is_undefined (Spec.field "doi" p) = false.
Proof.
  unfold Pubmed.paper; intros H.
  unbind H. unbind H. unbind H. unbind H.
  assert (Hdoi : Spec.field "doi" p = v2).
  { unbind_all H. inversion H; reflexivity. }
  rewrite Hdoi. clear H Hdoi.
  destruct (isArray v1).
  - unbind E2. unbind E2. inversion E2. apply or_else_defined.
  - unbind E2. destruct (strict_eq_str v3 "doi").
    + unbind E2. inversion E2. apply or_else_defined.
    + inversion E2. reflexivity.
Qed.

(** X12.  The [doi] of a PubMed paper is never missing: it is the empty
    string, or else the [_text] of a location identifier of the article
    whose [EIdType] is [doi], taken from the identifier itself when the
    article has one and from the first such element when it has several. *)
Theorem pubmed_doi_source (article p : value) :
  Pubmed.paper article = Normal p ->
  exists eLocationID,
    Spec.get_path article ["MedlineCitation"; "Article"; "ELocationID"]
    = Normal eLocationID
    /\ (Spec.field "doi" p = Str ""
        \/ (truthy (Spec.field "doi" p) = true
            /\ exists location,
                get location "EIdType" = Normal (Str "doi")
                /\ get location "_text" = Normal (Spec.field "doi" p)
                /\ match eLocationID with
                   | Arr l =>
                       exists pre post,
                       l = (pre ++ location :: post)%list
                       /\ Forall (fun id => exists t, get id "EIdType" = Normal t
                                                      /\ t <> Str "doi") pre
                   | _ => location = eLocationID
                   end)).
Proof.
  unfold Pubmed.paper; intros H.
  unbind H. unbind H. unbind H. unbind H.
  rename v into medline, v0 into articleData, v1 into eloc, v2 into doi.
  assert (Hdoi : Spec.field "doi" p = doi).
  { unbind_all H. inversion H; reflexivity. }
  clear H. rewrite Hdoi. exists eloc.
  split; [simpl; rewrite E; simpl; rewrite E0; simpl; rewrite E1; reflexivity|].
  clear E E0 E1 Hdoi.
  destruct (isArray eloc) eqn:Harr.
  - destruct eloc; try discriminate Harr. simpl in E2.
    apply bind_Normal in E2. destruct E2 as (loc & Hfind & E2).
    apply bind_Normal in E2. destruct E2 as (text & Htext & E2).
    inversion E2; subst doi; clear E2.
    destruct (or_else_text text) as [->|(Ht & ->)]; [left; reflexivity|].
    right. split; [exact Ht|].
    destruct (findM_Normal _ _ _ Hfind) as [(-> & _)|(pre & post & Hl & Hpre & Hx)].
    + simpl in Htext. inversion Htext; subst. discriminate Ht.
    + exists loc. destruct (attribute_test _ _ _ _ Hx) as (t & Hty & ->).
      split; [exact Hty|]. split; [exact (get_opt_truthy _ _ _ Htext Ht)|].
      exists pre, post. split; [exact Hl|].
      eapply Forall_impl; [|exact Hpre]. simpl. intros id Hid.
      exact (attribute_test _ _ _ _ Hid).
  - apply bind_Normal in E2. destruct E2 as (t & Hty & E2).
    destruct (strict_eq_str t "doi") eqn:Heq.
    + apply strict_eq_str_true in Heq. subst t.
      apply bind_Normal in E2. destruct E2 as (text & Htext & E2).
      inversion E2; subst doi; clear E2.
      destruct (or_else_text text) as [->|(Ht & ->)]; [left; reflexivity|].
      right. split; [exact Ht|]. exists eloc.
      split; [|split; [exact Htext|]].
      * destruct eloc; simpl in Hty; try exact Hty; inversion Hty.
      * destruct eloc; try reflexivity. discriminate Harr.
    + inversion E2; left; reflexivity.
Qed.

Lemma pubmed_doi_source_witness :
  exists eLocationID,
    Spec.get_path (Sample.article_with_ids Sample.two_ids)
      ["MedlineCitation"; "Article"; "ELocationID"] = Normal eLocationID
    /\ (Str "10.1000/j.1" = Str ""
        \/ (truthy (Str "10.1000/j.1") = true
            /\ exists location,
                get location "EIdType" = Normal (Str "doi")
                /\ get location "_text" = Normal (Str "10.1000/j.1")
                /\ match eLocationID with
                   | Arr l =>
                       exists pre post,
                       l = (pre ++ location :: post)%list
                       /\ Forall (fun id => exists t, get id "EIdType" = Normal t
                                                      /\ t <> Str "doi") pre
                   | _ => location = eLocationID
                   end)).
Proof.
  exact (pubmed_doi_source (Sample.article_with_ids Sample.two_ids) _ eq_refl).
Defined.

(** X13.  The authors of a PubMed paper are texts, one per [Author]
    element of the article and in their order: the last name, a space, the
    fore name, a missing or empty part left empty.  An article without an
    author list, or with an empty one, has no authors. *)
Theorem pubmed_author_names (article p : value) :
  Pubmed.paper article = Normal p ->
  exists authorList author names,
    Spec.get_path article ["MedlineCitation"; "Article"; "AuthorList"] = Normal authorList
    /\ get_opt authorList "Author" = Normal author
    /\ Spec.field "authors" p = Arr names
    /\ Forall2
         (fun a name =>
            exists lastName foreName,
              get a "LastName" = Normal lastName
              /\ get a "ForeName" = Normal foreName
              /\ name = Str (ToString (or_else lastName (Str "")) ++ " "
                             ++ ToString (or_else foreName (Str ""))))
         (if truthy author
          then match author with Arr l => l | _ => [author] end
          else [])
         names.
Proof.
  unfold Pubmed.paper; intros H.
  unbind H. unbind H. unbind H. unbind H. unbind H. unbind H. unbind H.
  rename v3 into alist, v4 into author, v5 into names.
  assert (Hn : Spec.field "authors" p = Arr names).
  { unbind_all H. inversion H; reflexivity. }
  clear H. exists alist, author, names.
  split; [simpl; rewrite E; simpl; rewrite E0; simpl; rewrite E3; reflexivity|].
  split; [exact E4|]. split; [exact Hn|].
  destruct (truthy author); [|inversion E5; constructor].
  assert (Hl : (if isArray author then author else Arr [author])
               = Arr match author with Arr l => l | _ => [author] end)
    by (destruct author; reflexivity).
  rewrite Hl in E5. simpl in E5. apply mapM_Forall2 in E5.
  eapply Forall2_impl; [|exact E5]. simpl. intros a name Ha.
  apply bind_Normal in Ha. destruct Ha as (ln & Hln & Ha).
  apply bind_Normal in Ha. destruct Ha as (fn & Hfn & Ha).
  inversion Ha. exists ln, fn. auto.
Qed.

Lemma pubmed_author_names_witness :
  exists authorList author names,
    Spec.get_path (Sample.article (Str "Gene therapy"))
      ["MedlineCitation"; "Article"; "AuthorList"] = Normal authorList
    /\ get_opt authorList "Author" = Normal author
    /\ Arr [Str "Doe Jane"] = Arr names
    /\ Forall2
         (fun a name =>
            exists lastName foreName,
              get a "LastName" = Normal lastName
              /\ get a "ForeName" = Normal foreName
              /\ name = Str (ToString (or_else lastName (Str "")) ++ " "
                             ++ ToString (or_else foreName (Str ""))))
         (if truthy author
          then match author with Arr l => l | _ => [author] end
          else [])
         names.
Proof.
  exact (pubmed_author_names (Sample.article (Str "Gene therapy")) _ eq_refl).
Defined.

(** X14.  In the JSON document of a PubMed paper, [abstract], [authors] and
    [doi] are always present (empty when the article has none), while
    [journal], [pmid], [publishDate] and [title] are present exactly when
    the article has the element they are read from. *)
Theorem pubmed_paper_json_keys (article p : value) :
  Pubmed.paper article = Normal p ->
  has_prop "abstract" (JSON_tree p) = true
  /\ has_prop "authors" (JSON_tree p) = true
  /\ has_prop "doi" (JSON_tree p) = true
  /\ has_prop "journal" (JSON_tree p) = negb (Spec.is_undefined (Spec.field "journal" p))
  /\ has_prop "pmid" (JSON_tree p) = negb (Spec.is_undefined (Spec.field "pmid" p))
  /\ has_prop "publishDate" (JSON_tree p)
     = negb (Spec.is_undefined (Spec.field "publishDate" p))
  /\ has_prop "title" (JSON_tree p) = negb (Spec.is_undefined (Spec.field "title" p))
  /\ Spec.get_path article ["MedlineCitation"; "Article"; "Journal"; "Title"]
     = Normal (Spec.field "journal" p)
  /\ Spec.get_path article ["MedlineCitation"; "PMID"] = Normal (Spec.field "pmid" p).
Proof.
  intros H.
  pose proof (pubmed_doi_defined article p H) as Hdoi.
  unfold Pubmed.paper in H.
  unbind H. unbind H. unbind H. unbind H. unbind H. unbind H. unbind H. unbind_all H.
  inversion H; subst; clear H. simpl in Hdoi.
  rewrite !has_prop_JSON_tree. simpl.
  rewrite or_else_defined, Hdoi. simpl.
  repeat (first [rewrite E | rewrite E0 | rewrite E8 | rewrite E9 | rewrite E10]; simpl).
  repeat split; rewrite ?orb_false_r; reflexivity.
Qed.

Lemma pubmed_paper_json_keys_witness :
  let p := match Pubmed.paper (Sample.article Undefined) with
           | Normal p => p
           | Throw _ => Undefined
           end in
  has_prop "abstract" (JSON_tree p) = true
  /\ has_prop "doi" (JSON_tree p) = true
  /\ has_prop "title" (JSON_tree p) = false.
Proof.
  destruct (pubmed_paper_json_keys (Sample.article Undefined) _ eq_refl)
    as (Ha & _ & Hd & _ & _ & _ & Ht & _).
  repeat split; assumption.
Defined.

(** ** The PubMed envelope *)



(** X16.  The papers of a PubMed answer are the articles of the detail
    document, one paper per article and in the document's order; the early
    empty answer has none. *)
Theorem papers_follow_articles (env : option string) (up : Upstream)
        (req : Request Pubmed.PubMedRequestData)
        (t : list effect) (body : value) (hs : list (string * string)) :
  Pubmed.handler env up req = (t, JsonResponse body hs) ->
  (JsonResponse body hs = Pubmed.emptyResponse /\ Spec.field "papers" body = Arr [])
  \/
  exists searchResult fetchResult articles papers,
    Spec.pubmed_fetched (Pubmed.API_KEY env) up req searchResult fetchResult
    /\ Spec.get_path fetchResult ["PubmedArticleSet"; "PubmedArticle"]
       = Normal (Arr articles)
    /\ Forall2 (fun a p => Pubmed.paper a = Normal p) articles papers
    /\ Spec.field "papers" body = JSON_tree (Arr papers).
Proof.
  intros H.
  destruct (pubmed_success _ _ _ _ _ _ H)
    as (_ & r & data & sr & pmids & len & Hj & Hg & Hp & Hi & Hl & Hcase).
  destruct Hcase as [(_ & He & _)|(Ht & ids & fetched & fr & Hc & Hf & Hq & Hr & _)].
  - left. split; [exact He|]. inversion He; reflexivity.
  - right. unfold Pubmed.respond in Hr.
    apply bind_Normal in Hr. destruct Hr as (set & Hset & Hr).
    apply bind_Normal in Hr. destruct Hr as (articles & Harts & Hr).
    apply bind_Normal in Hr. destruct Hr as (papers & Hmap & Hr).
    unbind_all Hr. inversion Hr; subst; clear Hr.
    destruct articles; simpl in Hmap; try discriminate Hmap.
    exists sr, fr, elems, papers. split; [|split; [|split]].
    + split; [exists r, data; auto|].
      exists pmids, len, ids, fetched. auto 10.
    + simpl. rewrite Hset. simpl. rewrite Harts. reflexivity.
    + apply mapM_Forall2; exact Hmap.
    + reflexivity.
Qed.

Lemma papers_follow_articles_witness :
  let env := None in
  let up :=
    Sample.pubmed_upstream
      (Sample.esearch 2 (Obj [("Id", Arr [Num (Int 31452104); Num (Int 31452105)])]))
      (Sample.efetch (Arr [Sample.article (Str "Gene therapy");
                           Sample.article_with_ids Sample.two_ids])) in
  let req := Sample.post (Sample.pubmed_request None None None) in
  let response := snd (Pubmed.handler env up req) in
  (response = Pubmed.emptyResponse /\ body_prop "papers" response = Arr [])
  \/
  exists searchResult fetchResult articles papers,
    Spec.pubmed_fetched (Pubmed.API_KEY env) up req searchResult fetchResult
    /\ Spec.get_path fetchResult ["PubmedArticleSet"; "PubmedArticle"]
       = Normal (Arr articles)
    /\ Forall2 (fun a p => Pubmed.paper a = Normal p) articles papers
    /\ body_prop "papers" response = JSON_tree (Arr papers).
Proof.
  exact (papers_follow_articles None
           (Sample.pubmed_upstream
              (Sample.esearch 2 (Obj [("Id", Arr [Num (Int 31452104); Num (Int 31452105)])]))
              (Sample.efetch (Arr [Sample.article (Str "Gene therapy");
                                   Sample.article_with_ids Sample.two_ids])))
           (Sample.post (Sample.pubmed_request None None None)) _ _ _ eq_refl).
Defined.


(** ** The query inside the URL *)

Lemma unreserved_not_percent (c : ascii) :
  unreserved c = true -> (c =? "%")%char = false.
Proof.
  intros H. destruct (Ascii.eqb_spec c "%") as [->|_]; [|reflexivity].
  vm_compute in H. discriminate H.
Qed.

Lemma hex_digit_spec (n : nat) :
  (n < 16)%nat ->
  Spec.hex_value (hex_digit n) = n /\ unreserved (hex_digit n) = true.
Proof.
  intros H.
  do 16 (destruct n as [|n]; [split; reflexivity|]). lia.
Qed.

Lemma byte_split (c : ascii) :
  let n := nat_of_ascii c in
  (n / 16 < 16)%nat /\ (n mod 16 < 16)%nat /\ (16 * (n / 16) + n mod 16)%nat = n.
Proof.
  intros n. pose proof (nat_ascii_bounded c) as Hb. fold n in Hb.
  split; [apply Nat.Div0.div_lt_upper_bound; lia|].
  split; [apply Nat.mod_upper_bound; lia|].
  symmetry. apply Nat.div_mod_eq.
Qed.

(** What [encodeURIComponent] writes is read back unchanged. *)
Lemma percent_decode_encode (s : string) :
  Spec.percent_decode (encodeURIComponent s) = s.
Proof.
  induction s as [|c s IH]; [reflexivity|].
  cbn [encodeURIComponent].
  destruct (unreserved c) eqn:Hc.
  - cbn [Spec.percent_decode]. rewrite (unreserved_not_percent c Hc), IH. reflexivity.
  - destruct (byte_split c) as (Hh & Hl & Hn).
    cbn [Spec.percent_decode]. rewrite Ascii.eqb_refl.
    rewrite (proj1 (hex_digit_spec _ Hh)), (proj1 (hex_digit_spec _ Hl)), Hn, IH.
    rewrite ascii_nat_embedding. reflexivity.
Qed.

Lemma encoded_is_url_safe (s : string) :
  Spec.all_chars Spec.url_safe (encodeURIComponent s) = true.
Proof.
  induction s as [|c s IH]; [reflexivity|].
  cbn [encodeURIComponent].
  destruct (unreserved c) eqn:Hc.
  - cbn [Spec.all_chars]. unfold Spec.url_safe at 1. rewrite Hc, IH. reflexivity.
  - destruct (byte_split c) as (Hh & Hl & _).
    cbn [Spec.all_chars]. unfold Spec.url_safe at 1 2 3.
    rewrite (proj2 (hex_digit_spec _ Hh)), (proj2 (hex_digit_spec _ Hl)), IH.
    reflexivity.
Qed.

Lemma append_cancel (p a b : string) : p ++ a = p ++ b -> a = b.
Proof.
  induction p as [|c p IH]; simpl; intros H; [exact H|].
  inversion H. auto.
Qed.

(** Two texts without [c], each followed by [c], that give the same whole
    are the same text. *)
Lemma split_at_first (p : ascii -> bool) (c : ascii) (a b x y : string) :
  Spec.all_chars p a = true -> Spec.all_chars p b = true -> p c = false ->
  a ++ String c x = b ++ String c y -> a = b.
Proof.
  intros Ha Hb Hc. revert b Hb.
  induction a as [|d a IH]; intros [|d' b] Hb H; simpl in *.
  - reflexivity.
  - inversion H; subst. apply andb_true_iff in Hb. destruct Hb as [Hd _]. congruence.
  - inversion H; subst. apply andb_true_iff in Ha. destruct Ha as [Hd _]. congruence.
  - inversion H; subst.
    apply andb_true_iff in Ha. destruct Ha as [_ Ha].
    apply andb_true_iff in Hb. destruct Hb as [_ Hb].
    f_equal. exact (IH Ha b Hb H2).
Qed.

(** X18.  The query survives the trip through the URL: two requests for
    which either handler builds the same search URL have the same
    translated query, however the query text is made up; a query holding
    [&], [=] or [#] cannot pass for another parameter. *)
Theorem search_url_determines_query :
  (forall r1 r2,
      Arxiv.url r1 = Arxiv.url r2 -> Arxiv.searchQuery r1 = Arxiv.searchQuery r2)
  /\ (forall key r1 r2,
         Pubmed.searchUrl key r1 = Pubmed.searchUrl key r2 ->
         Pubmed.searchQuery r1 = Pubmed.searchQuery r2).
Proof.
  split.
  - intros r1 r2 H. unfold Arxiv.url in H.
    apply append_cancel in H. apply append_cancel in H.
    cbn [String.append] in H.
    apply (split_at_first Spec.url_safe) in H;
      [|apply encoded_is_url_safe|apply encoded_is_url_safe|reflexivity].
    rewrite <- (percent_decode_encode (Arxiv.searchQuery r1)), H.
    apply percent_decode_encode.
  - intros key r1 r2 H. unfold Pubmed.searchUrl in H.
    apply append_cancel in H. apply append_cancel in H.
    cbn [String.append] in H.
    apply (split_at_first Spec.url_safe) in H;
      [|apply encoded_is_url_safe|apply encoded_is_url_safe|reflexivity].
    rewrite <- (percent_decode_encode (Pubmed.searchQuery r1)), H.
    apply percent_decode_encode.
Qed.

Lemma search_url_determines_query_witness :
  Arxiv.searchQuery (Sample.arxiv_request (Some 0) None)
  = Arxiv.searchQuery (Sample.arxiv_request None None)
  /\ Pubmed.searchQuery (Sample.pubmed_request None (Some 0) (Some 2021))
     = Pubmed.searchQuery (Sample.pubmed_request None None (Some 2021)).
Proof.
  split.
  - apply (proj1 search_url_determines_query
             (Sample.arxiv_request (Some 0) None) (Sample.arxiv_request None None)).
    reflexivity.
  - apply (proj2 search_url_determines_query (Pubmed.API_KEY None)
             (Sample.pubmed_request None (Some 0) (Some 2021))
             (Sample.pubmed_request None None (Some 2021))).
    reflexivity.
Defined.

(** ** The counter, shape by shape *)

(** X19.  What the arXiv answer reports as [totalResults] depends on the
    shape in which the parser delivers the counter element: from an array
    it is the number read from the first element; from a bare text it is
    the number read from the first character alone; from a number, a
    boolean, an empty text, an empty array or an object (an element with
    attributes) it is [null]. *)
Theorem total_results_by_counter_shape (up : Upstream)
        (req : Request Arxiv.ArxivRequestData)
        (t : list effect) (body : value) (hs : list (string * string)) :
  Arxiv.handler up req = (t, JsonResponse body hs) ->
  exists r result counter,
    Spec.arxiv_parsed up req r result
    /\ Spec.get_path result ["feed"; "opensearch:totalResults"] = Normal counter
    /\ match counter with
       | Arr (v :: _) =>
           Spec.field "totalResults" body = Spec.json_number (parseInt v)
       | Str (String c _) =>
           Spec.field "totalResults" body
           = Spec.json_number (parseInt (Str (String c "")))
       | Obj ps =>
           lookup "0" ps = Undefined -> Spec.field "totalResults" body = Null
       | Arr [] | Str "" | Num _ | Bool _ =>
           Spec.field "totalResults" body = Null
       | Undefined | Null => False
       end.
Proof.
  intros H.
  destruct (arxiv_success_parsed _ _ _ _ _ H) as (r & result & Hparsed & Hr).
  destruct (arxiv_respond_body _ _ _ _ Hr)
    as (feed & entry & papers & counter & counter0 & Hf & _ & _ & Hc & H0 & Ht & _).
  exists r, result, counter. split; [exact Hparsed|].
  split; [simpl; rewrite Hf; simpl; rewrite Hc; reflexivity|].
  rewrite Ht.
  destruct counter as [| |b|n|s|l|ps]; simpl in H0; try discriminate H0.
  - inversion H0; reflexivity.
  - inversion H0; reflexivity.
  - destruct s; inversion H0; reflexivity.
  - destruct l; inversion H0; reflexivity.
  - inversion H0; subst. intros ->. reflexivity.
Qed.

Lemma total_results_by_counter_shape_witness :
  let up :=
    Sample.serving
      (fun _ => Normal (Obj [("feed",
                              Obj [("opensearch:totalResults",
                                    Obj [("#text", Num (Int 25));
                                         ("xmlns:opensearch",
                                          Str "http://a9.com/-/spec/opensearch/1.1/")])])])) in
  let req := Sample.post (Sample.arxiv_request None None) in
  exists r result counter,
    Spec.arxiv_parsed up req r result
    /\ Spec.get_path result ["feed"; "opensearch:totalResults"] = Normal counter
    /\ match counter with
       | Arr (v :: _) =>
           body_prop "totalResults" (snd (Arxiv.handler up req))
           = Spec.json_number (parseInt v)
       | Str (String c _) =>
           body_prop "totalResults" (snd (Arxiv.handler up req))
           = Spec.json_number (parseInt (Str (String c "")))
       | Obj ps =>
           lookup "0" ps = Undefined ->
           body_prop "totalResults" (snd (Arxiv.handler up req)) = Null
       | Arr [] | Str "" | Num _ | Bool _ =>
           body_prop "totalResults" (snd (Arxiv.handler up req)) = Null
       | Undefined | Null => False
       end.
Proof.
  exact (total_results_by_counter_shape
           (Sample.serving
              (fun _ => Normal (Obj [("feed",
                                      Obj [("opensearch:totalResults",
                                            Obj [("#text", Num (Int 25));
                                                 ("xmlns:opensearch",
                                                  Str "http://a9.com/-/spec/opensearch/1.1/")])])])))
           (Sample.post (Sample.arxiv_request None None)) _ _ _ eq_refl).
Defined.
